(** * AS-Static-hosting-Bot: the upload session protocol of [bot.js]

    A shallow embedding of the Telegram bot's handlers.  Every handler of
    [bot.js] that reads or writes [ctx.session] is transcribed into a small
    state-and-exception monad [Js]; the outside world (the Telegram Bot API,
    the hosting API and the MongoDB connection) is an oracle [Env] that
    fixes the outcome of every external call made while one update is
    processed.  Calls are logged in order, so that statements such as
    "deploy is requested once, with these files" are statements about the
    log. *)

From Stdlib Require Import ZArith NArith List Bool Lia.
From Stdlib.Strings Require Import String Ascii Byte.
Import ListNotations.

Local Open Scope Z_scope.

(** ** JavaScript strings *)

(** A JavaScript string is a sequence of UTF-16 code units. *)
Definition jsstr := list N.

(** Code units of an ASCII literal. *)
Definition U (s : string) : jsstr :=
  map N_of_ascii (list_ascii_of_string s).

(** ECMAScript [WhiteSpace] and [LineTerminator] code points: the ones
    [String.prototype.trim] strips. *)
Definition is_whitespace (c : N) : bool :=
  ((9 <=? c) && (c <=? 13) || (c =? 32) || (c =? 160) || (c =? 5760)
   || (8192 <=? c) && (c <=? 8202) || (c =? 8232) || (c =? 8233)
   || (c =? 8239) || (c =? 8287) || (c =? 12288) || (c =? 65279))%N.

Fixpoint trimStart (s : jsstr) : jsstr :=
  match s with
  | c :: r => if is_whitespace c then trimStart r else s
  | [] => []
  end.

Definition trimEnd (s : jsstr) : jsstr := rev (trimStart (rev s)).

Definition trim (s : jsstr) : jsstr := trimEnd (trimStart s).

Fixpoint startsWith (s prefix : jsstr) : bool :=
  match prefix, s with
  | [], _ => true
  | p :: ps, c :: r => (c =? p)%N && startsWith r ps
  | _ :: _, [] => false
  end.

(** [a || b] on a possibly-undefined string: the empty string is falsy. *)
Definition or_else (a : option jsstr) (b : jsstr) : jsstr :=
  match a with
  | Some (c :: r) => c :: r
  | _ => b
  end.

(** ** [Buffer.prototype.toString('base64')] *)

Definition base64_alphabet : jsstr :=
  U "ABCDEFGHIJKLMNOPQRSTUVWXYZabcdefghijklmnopqrstuvwxyz0123456789+/".

Definition base64_digit (i : N) : N := nth (N.to_nat i) base64_alphabet 0%N.

Definition pad : N := 61%N.

Fixpoint base64 (bs : list byte) : jsstr :=
  match bs with
  | [] => []
  | [a] =>
      let n := N.shiftl (Byte.to_N a) 16 in
      [base64_digit (N.shiftr n 18);
       base64_digit (N.land (N.shiftr n 12) 63); pad; pad]
  | [a; b] =>
      let n := N.lor (N.shiftl (Byte.to_N a) 16) (N.shiftl (Byte.to_N b) 8) in
      [base64_digit (N.shiftr n 18);
       base64_digit (N.land (N.shiftr n 12) 63);
       base64_digit (N.land (N.shiftr n 6) 63); pad]
  | a :: b :: c :: rest =>
      let n := N.lor (N.lor (N.shiftl (Byte.to_N a) 16)
                            (N.shiftl (Byte.to_N b) 8)) (Byte.to_N c) in
      base64_digit (N.shiftr n 18)
        :: base64_digit (N.land (N.shiftr n 12) 63)
        :: base64_digit (N.land (N.shiftr n 6) 63)
        :: base64_digit (N.land n 63)
        :: base64 rest
  end.

Definition bytes_of (s : string) : list byte := list_byte_of_string s.

(** ** Data model *)

(** The values [ctx.session.state] takes in [bot.js]. *)
Inductive SessionState :=
| waiting_for_name
| waiting_for_files
| admin_delete
| admin_restore.

(** The values of [ctx.session.uploadType]. *)
Inductive UploadType := zip | multiple.

(** An element of [ctx.session.files]: [{ fileName, fileData }]. *)
Record StagedFile := {
  fileName : option jsstr;
  fileData : jsstr
}.

(** [ctx.session] is a plain JavaScript object: every field may be absent
    ([undefined]).  [{ state: 'admin_delete' }] has only [state]. *)
Record Session := {
  state : option SessionState;
  uploadType : option UploadType;
  siteName : option jsstr;
  files : option (list StagedFile)
}.

(** [ctx.message.document]; [file_name] and [file_size] are optional in the
    Bot API. *)
Record Document := {
  file_id : jsstr;
  file_name : option jsstr;
  file_size : option Z
}.

Inductive SiteStatus := active | deleted.

(** A document of the [UserSite] collection ([userSiteSchema]). *)
Record UserSite := {
  userId : Z;
  name : jsstr;
  slug : jsstr;
  url : jsstr;
  filesCount : nat;
  uploadedAt : Z;
  status : SiteStatus
}.

(** The second argument of [saveUserSite]. *)
Record SiteData := {
  sd_name : option jsstr;
  sd_slug : jsstr;
  sd_url : jsstr;
  sd_filesCount : nat
}.

(** [response.data] of [POST /api/upload]. *)
Record DeployResult := {
  ok : bool;
  r_slug : jsstr;
  r_url : jsstr;
  r_error : jsstr
}.

Inductive MongoFailure := ValidationFailed | DuplicateKey | NotConnected.

(** Exceptions the handlers can see. *)
Inductive JsError :=
| TypeError                                   (* property read of undefined *)
| TelegramError                               (* a Bot API call was rejected *)
| AxiosError (response_error : option jsstr) (message : jsstr)
| MongoError (f : MongoFailure).

(** [error.response?.data?.error]. *)
Definition response_data_error (e : JsError) : option jsstr :=
  match e with
  | AxiosError r _ => r
  | _ => None
  end.

(** [error.message]. *)
Definition error_message (e : JsError) : jsstr :=
  match e with
  | TypeError => U "Cannot read properties of undefined (reading 'length')"
  | TelegramError => U "Bad Request"
  | AxiosError _ m => m
  | MongoError ValidationFailed => U "UserSite validation failed"
  | MongoError DuplicateKey => U "E11000 duplicate key error"
  | MongoError NotConnected => U "Operation buffering timed out"
  end.

(** The texts the bot sends, by template; the arguments are the values
    interpolated into the template. *)
Inductive Msg :=
| MsgWelcome (isAdminUser : bool)
| MsgScreen (screen : nat)             (* help, stats, my_sites, admin views *)
| MsgAccessDenied
| MsgDeletePrompt
| MsgRestorePrompt
| MsgChooseUploadMethod
| MsgEnterSiteName
| MsgMainMenu (isAdminUser : bool)
| MsgCancelledToast
| MsgCancelled
| MsgNoFilesYet                        (* 'No files uploaded yet!' *)
| MsgDeployingToast
| MsgDeploying
| MsgDeploySuccess (url slug : jsstr) (nfiles : option nat)
| MsgDeployRejected (error : jsstr)    (* 'Deployment failed: ${result.error}' *)
| MsgDeployFailed (error : jsstr)      (* '*Deployment Failed* Error: ...' *)
| MsgDeleting
| MsgDeleted (slug : jsstr)
| MsgRestoring
| MsgRestored (slug : jsstr)
| MsgSiteNotFound (slug : jsstr)
| MsgDeleteFailed
| MsgRestoreFailed
| MsgSiteNameZip (siteName : jsstr)
| MsgSiteNameMultiple (siteName : jsstr)
| MsgStartUploadFirst                  (* 'Please start an upload first ...' *)
| MsgFileTooLarge                      (* 'File too large! Maximum size is 50MB.' *)
| MsgDownloading (fileName : option jsstr)
| MsgFileUploaded (fileName : option jsstr) (fileSize : option Z) (total : nat)
| MsgDownloadFailed                    (* 'Failed to download file. Please try again.' *)
| MsgGenericError.                     (* 'An error occurred. Please try again later.' *)

(** Calls on the Telegram Bot API. *)
Inductive TgCall :=
| Reply (m : Msg)
| EditMessageText (m : Msg)
| AnswerCbQuery (m : Msg)
| DeleteMessage.

Inductive AdminOp := OpDelete | OpRestore.

(** Everything a handler does to the outside world, in the order it does
    it. *)
Inductive Effect :=
| Tg (c : TgCall)
| GetFile (id : jsstr)                                 (* downloadTelegramFile *)
| PostUpload (siteName : option jsstr) (files : list StagedFile)
                                                       (* uploadToHosting *)
| MongoSave (uid : Z) (data : SiteData) (ts : Z)       (* newSite.save() *)
| MongoSetStatus (slug : jsstr) (st : SiteStatus)      (* findOneAndUpdate *)
| PostAdmin (op : AdminOp) (slug : jsstr).

(** The outcome of [uploadToHosting]: axios rejects on a timeout, on a
    network failure and on a non-2xx status; otherwise the body is returned. *)
Inductive DeployOutcome :=
| DeployThrows (response_error : option jsstr) (message : jsstr)
| DeployReturns (r : DeployResult).

(** The world around one update: who sent it, the configuration, and the
    outcome of each external call the handler may make. *)
Record Env := {
  from_id : Z;                                   (* ctx.from.id *)
  ADMIN_IDS : list Z;
  now : Z;                                       (* new Date() *)
  telegram_ok : TgCall -> bool;                  (* does the call resolve? *)
  telegram_file : jsstr -> option (list byte);   (* file contents by file_id *)
  hosting : option jsstr -> list StagedFile -> DeployOutcome;
  admin_api_ok : AdminOp -> jsstr -> bool;       (* apiResponse?.data?.ok *)
  mongo_connected : bool
}.

(** What an update can change: this conversation's session and the
    [UserSite] collection; [log] records the effects. *)
Record World := {
  session : option Session;                      (* ctx.session, or null *)
  db : list UserSite;
  log : list Effect
}.

(** ** The monad of handlers *)

Inductive Completion (A : Type) :=
| Normal (a : A)
| Throw (e : JsError).

Arguments Normal {A} a.
Arguments Throw {A} e.

Definition Js (A : Type) : Type := Env -> World -> Completion A * World.

Definition ret {A} (a : A) : Js A := fun _ w => (Normal a, w).

Definition bind {A B} (m : Js A) (k : A -> Js B) : Js B :=
  fun env w =>
    match m env w with
    | (Normal a, w') => k a env w'
    | (Throw e, w') => (Throw e, w')
    end.

Definition throw {A} (e : JsError) : Js A := fun _ w => (Throw e, w).

(** [try { m } catch (error) { h error }]. *)
Definition try_catch {A} (m : Js A) (h : JsError -> Js A) : Js A :=
  fun env w =>
    match m env w with
    | (Normal a, w') => (Normal a, w')
    | (Throw e, w') => h e env w'
    end.

Declare Scope js_scope.
Delimit Scope js_scope with js.
Notation "x <- m ;; k" := (bind m (fun x => k))
  (at level 61, m at next level, right associativity) : js_scope.
Notation "m ;; k" := (bind m (fun _ => k))
  (at level 61, right associativity) : js_scope.
Local Open Scope js_scope.

Definition ask : Js Env := fun env w => (Normal env, w).

Definition emit (e : Effect) : Js unit :=
  fun _ w =>
    (Normal tt, {| session := session w; db := db w; log := log w ++ [e] |}).

Definition get_session : Js (option Session) :=
  fun _ w => (Normal (session w), w).

(** [ctx.session = s]. *)
Definition set_session (s : option Session) : Js unit :=
  fun _ w => (Normal tt, {| session := s; db := db w; log := log w |}).

Definition get_db : Js (list UserSite) := fun _ w => (Normal (db w), w).

Definition set_db (d : list UserSite) : Js unit :=
  fun _ w => (Normal tt, {| session := session w; db := d; log := log w |}).

(** [await ctx.reply(...)] and [return ctx.reply(...)]: the handler sees a
    rejection of the call. *)
Definition tg_await (c : TgCall) : Js unit :=
  emit (Tg c) ;;
  env <- ask ;;
  if telegram_ok env c then ret tt else throw TelegramError.

(** [ctx.reply(...)] as a statement: the promise is dropped, the handler
    goes on whatever becomes of the call. *)
Definition tg_fire (c : TgCall) : Js unit := emit (Tg c).

(** [isAdmin(ctx.from.id)]. *)
Definition isAdmin : Js bool :=
  env <- ask ;;
  ret (existsb (Z.eqb (from_id env)) (ADMIN_IDS env)).

(** ** The [UserSite] collection *)

Fixpoint jsstr_eqb (a b : jsstr) : bool :=
  match a, b with
  | [], [] => true
  | x :: a', y :: b' => (x =? y)%N && jsstr_eqb a' b'
  | _, _ => false
  end.

Definition has_slug (sl : jsstr) (d : list UserSite) : bool :=
  existsb (fun r => jsstr_eqb (slug r) sl) d.

(** [required: true] on a [String] path rejects [undefined] and the empty
    string. *)
Definition required (v : option jsstr) : bool :=
  match v with
  | Some (_ :: _) => true
  | _ => false
  end.

(** [new UserSite({ userId, ...siteData, uploadedAt: new Date() })], with the
    schema default [status: 'active']. *)
Definition new_UserSite (uid : Z) (sd : SiteData) (ts : Z) : UserSite :=
  {| userId := uid;
     name := match sd_name sd with Some n => n | None => [] end;
     slug := sd_slug sd;
     url := sd_url sd;
     filesCount := sd_filesCount sd;
     uploadedAt := ts;
     status := active |}.

(** [newSite.save()]: the schema is validated first ([required] on [name],
    [slug] and [url]); the insert needs the connection; [unique: true] on
    [slug] makes the insert of a second document with the same slug fail
    with a duplicate-key error.  A failed save leaves the collection as it
    was. *)
Definition UserSite_save (uid : Z) (sd : SiteData) (ts : Z) : Js unit :=
  emit (MongoSave uid sd ts) ;;
  if negb (required (sd_name sd) && required (Some (sd_slug sd))
           && required (Some (sd_url sd)))
  then throw (MongoError ValidationFailed)
  else
    env <- ask ;;
    if negb (mongo_connected env) then throw (MongoError NotConnected)
    else
      d <- get_db ;;
      if has_slug (sd_slug sd) d then throw (MongoError DuplicateKey)
      else set_db (d ++ [new_UserSite uid sd ts]).

(** [saveUserSite]: the [catch] logs and re-throws. *)
Definition saveUserSite (uid : Z) (siteData : SiteData) : Js unit :=
  try_catch
    (env <- ask ;;
     UserSite_save uid siteData (now env))
    (fun error => throw error).

(** [UserSite.findOneAndUpdate({ slug }, { status })] on the collection:
    the first document with that slug is updated; [None] when there is
    none. *)
Fixpoint findOneAndUpdate (sl : jsstr) (st : SiteStatus) (d : list UserSite)
  : option (list UserSite) :=
  match d with
  | [] => None
  | r :: rest =>
      if jsstr_eqb (slug r) sl
      then Some ({| userId := userId r; name := name r; slug := slug r;
                    url := url r; filesCount := filesCount r;
                    uploadedAt := uploadedAt r; status := st |} :: rest)
      else option_map (cons r) (findOneAndUpdate sl st rest)
  end.

(** [deleteSiteBySlug] and [restoreSiteBySlug]: [result !== null], and
    [false] when the query throws. *)
Definition setStatusBySlug (sl : jsstr) (st : SiteStatus) : Js bool :=
  emit (MongoSetStatus sl st) ;;
  env <- ask ;;
  if negb (mongo_connected env) then ret false
  else
    d <- get_db ;;
    match findOneAndUpdate sl st d with
    | Some d' => set_db d' ;; ret true
    | None => ret false
    end.

Definition deleteSiteBySlug (sl : jsstr) : Js bool := setStatusBySlug sl deleted.

Definition restoreSiteBySlug (sl : jsstr) : Js bool := setStatusBySlug sl active.

(** ** Calls on the Telegram file API and on the hosting API *)

(** [downloadTelegramFile]: the [catch] logs and re-throws. *)
Definition downloadTelegramFile (fileId : jsstr) : Js (list byte) :=
  emit (GetFile fileId) ;;
  env <- ask ;;
  match telegram_file env fileId with
  | Some buffer => ret buffer
  | None => throw (AxiosError None (U "Network Error"))
  end.

(** [uploadToHosting]: the [catch] logs and re-throws. *)
Definition uploadToHosting (siteName : option jsstr) (files : list StagedFile)
  : Js DeployResult :=
  emit (PostUpload siteName files) ;;
  env <- ask ;;
  match hosting env siteName files with
  | DeployReturns r => ret r
  | DeployThrows re m => throw (AxiosError re m)
  end.

(** [axios.post(`${API_URL}/api/admin/site/${slug}/...`).catch(() => null)]
    followed by [apiResponse?.data?.ok]. *)
Definition postAdmin (op : AdminOp) (sl : jsstr) : Js bool :=
  emit (PostAdmin op sl) ;;
  env <- ask ;;
  ret (admin_api_ok env op sl).

(** ** Handlers *)

Inductive ActionName :=
| help | stats | my_sites
| admin_panel | admin_list_sites | admin_server_stats
| admin_delete_site | admin_restore_site
| upload | upload_zip | upload_files
| back_menu | cancel | finish_upload.

Inductive Update :=
| StartCommand                       (* bot.start *)
| Action (a : ActionName)            (* bot.action(a) *)
| TextMessage (text : jsstr)         (* bot.on('text'), ctx.message.text *)
| DocumentMessage (d : Document).    (* bot.on('document') *)

Definition state_is (s : option Session) (st : SessionState) : bool :=
  match s with
  | Some sess =>
      match state sess, st with
      | Some waiting_for_name, waiting_for_name
      | Some waiting_for_files, waiting_for_files
      | Some admin_delete, admin_delete
      | Some admin_restore, admin_restore => true
      | _, _ => false
      end
  | None => false
  end.

Definition uploadType_is_zip (sess : Session) : bool :=
  match uploadType sess with
  | Some zip => true
  | _ => false
  end.

(** Reading a property of [ctx.session]: a [TypeError] when the session is
    [null]. *)
Definition the_session : Js Session :=
  s <- get_session ;;
  match s with
  | Some sess => ret sess
  | None => throw TypeError
  end.

(** [bot.start]. *)
Definition on_start : Js unit :=
  isAdminUser <- isAdmin ;;
  tg_fire (Reply (MsgWelcome isAdminUser)).

(** [help], [stats], [my_sites] and [upload] only render a screen; they
    neither read nor write [ctx.session]. *)
Definition on_screen (n : nat) : Js unit :=
  tg_fire (EditMessageText (MsgScreen n)).

(** [admin_panel], [admin_list_sites], [admin_server_stats]: the admin guard,
    then a screen; [ctx.session] is not touched. *)
Definition on_admin_screen (n : nat) : Js unit :=
  adm <- isAdmin ;;
  if negb adm then tg_await (AnswerCbQuery MsgAccessDenied)
  else tg_fire (EditMessageText (MsgScreen n)).

(** [bot.action('admin_delete_site')]. *)
Definition on_admin_delete_site : Js unit :=
  adm <- isAdmin ;;
  if negb adm then tg_await (AnswerCbQuery MsgAccessDenied)
  else
    set_session (Some {| state := Some admin_delete; uploadType := None;
                         siteName := None; files := None |}) ;;
    tg_fire (EditMessageText MsgDeletePrompt).

(** [bot.action('admin_restore_site')]. *)
Definition on_admin_restore_site : Js unit :=
  adm <- isAdmin ;;
  if negb adm then tg_await (AnswerCbQuery MsgAccessDenied)
  else
    set_session (Some {| state := Some admin_restore; uploadType := None;
                         siteName := None; files := None |}) ;;
    tg_fire (EditMessageText MsgRestorePrompt).

(** [bot.action('upload_zip')]. *)
Definition on_upload_zip : Js unit :=
  set_session (Some {| state := Some waiting_for_name; uploadType := Some zip;
                       siteName := None; files := Some [] |}) ;;
  tg_fire (EditMessageText MsgEnterSiteName).

(** [bot.action('upload_files')]. *)
Definition on_upload_files : Js unit :=
  set_session (Some {| state := Some waiting_for_name;
                       uploadType := Some multiple;
                       siteName := None; files := Some [] |}) ;;
  tg_fire (EditMessageText MsgEnterSiteName).

(** [bot.action('back_menu')]. *)
Definition on_back_menu : Js unit :=
  set_session None ;;
  isAdminUser <- isAdmin ;;
  tg_fire (EditMessageText (MsgMainMenu isAdminUser)).

(** [bot.action('cancel')]. *)
Definition on_cancel : Js unit :=
  set_session None ;;
  tg_fire (AnswerCbQuery MsgCancelledToast) ;;
  tg_fire (EditMessageText MsgCancelled).

(** [bot.action('finish_upload')]. *)
Definition on_finish_upload : Js unit :=
  s <- get_session ;;
  match s with
  | None => tg_await (AnswerCbQuery MsgNoFilesYet)
  | Some sess =>
      match files sess with
      | None => throw TypeError          (* ctx.session.files.length *)
      | Some files =>
          if (List.length files =? 0)%nat
          then tg_await (AnswerCbQuery MsgNoFilesYet)
          else
            let siteName := siteName sess in
            env <- ask ;;
            let userId := from_id env in
            try_catch
              (tg_await (AnswerCbQuery MsgDeployingToast) ;;
               tg_await (EditMessageText MsgDeploying) ;;
               result <- uploadToHosting siteName files ;;
               (if ok result
                then
                  saveUserSite userId
                    {| sd_name := siteName; sd_slug := r_slug result;
                       sd_url := r_url result;
                       sd_filesCount := List.length files |} ;;
                  tg_fire (EditMessageText
                             (MsgDeploySuccess (r_url result) (r_slug result)
                                               (Some (List.length files))))
                else
                  tg_fire (EditMessageText
                             (MsgDeployRejected (r_error result)))) ;;
               set_session None)
              (fun error =>
                 tg_fire (EditMessageText
                            (MsgDeployFailed
                               (or_else (response_data_error error)
                                        (error_message error)))) ;;
                 set_session None)
      end
  end.

(** The two admin branches of [bot.on('text')]. *)
Definition admin_text (op : AdminOp) (text : jsstr) : Js unit :=
  adm <- isAdmin ;;
  if negb adm then ret tt
  else
    let slug := trim text in
    try_catch
      (tg_await (Reply (match op with
                        | OpDelete => MsgDeleting
                        | OpRestore => MsgRestoring
                        end)) ;;
       changed <- match op with
                  | OpDelete => deleteSiteBySlug slug
                  | OpRestore => restoreSiteBySlug slug
                  end ;;
       api <- postAdmin op slug ;;
       if changed || api
       then tg_fire (Reply (match op with
                            | OpDelete => MsgDeleted slug
                            | OpRestore => MsgRestored slug
                            end))
       else tg_fire (Reply (MsgSiteNotFound slug)))
      (fun _ => tg_fire (Reply (match op with
                                | OpDelete => MsgDeleteFailed
                                | OpRestore => MsgRestoreFailed
                                end))) ;;
    set_session None.

(** [bot.on('text')]. *)
Definition on_text (text : jsstr) : Js unit :=
  s <- get_session ;;
  if state_is s admin_delete then admin_text OpDelete text
  else if state_is s admin_restore then admin_text OpRestore text
  else
    match s with
    | None => ret tt
    | Some sess =>
        if negb (state_is s waiting_for_name) then ret tt
        else
          let siteName := trim text in
          if startsWith siteName (U "/") then ret tt
          else
            set_session (Some {| state := Some waiting_for_files;
                                 uploadType := uploadType sess;
                                 siteName := Some siteName;
                                 files := files sess |}) ;;
            if uploadType_is_zip sess
            then tg_fire (Reply (MsgSiteNameZip siteName))
            else tg_fire (Reply (MsgSiteNameMultiple siteName))
    end.

(** [50 * 1024 * 1024]. *)
Definition MAX_FILE_SIZE : Z := 50 * 1024 * 1024.

(** [fileSize > 50 * 1024 * 1024]; [undefined > n] is [false]. *)
Definition too_large (fileSize : option Z) : bool :=
  match fileSize with
  | Some n => MAX_FILE_SIZE <? n
  | None => false
  end.

(** [ctx.session.files.push(f)]. *)
Definition push_file (f : StagedFile) : Js unit :=
  sess <- the_session ;;
  match files sess with
  | None => throw TypeError
  | Some fs =>
      set_session (Some {| state := state sess; uploadType := uploadType sess;
                           siteName := siteName sess;
                           files := Some (fs ++ [f]) |})
  end.

(** [bot.on('document')]. *)
Definition on_document (document : Document) : Js unit :=
  s <- get_session ;;
  if negb (state_is s waiting_for_files)
  then tg_await (Reply MsgStartUploadFirst)
  else
    let fileName := file_name document in
    let fileSize := file_size document in
    if too_large fileSize then tg_await (Reply MsgFileTooLarge)
    else
      try_catch
        (tg_await (Reply (MsgDownloading fileName)) ;;
         fileBuffer <- downloadTelegramFile (file_id document) ;;
         let base64Data := base64 fileBuffer in
         push_file {| fileName := fileName; fileData := base64Data |} ;;
         tg_await DeleteMessage ;;
         sess <- the_session ;;
         if uploadType_is_zip sess
         then
           let siteName := siteName sess in
           match files sess with
           | None => throw TypeError
           | Some files =>
               env <- ask ;;
               let userId := from_id env in
               tg_await (Reply MsgDeploying) ;;
               result <- uploadToHosting siteName files ;;
               (if ok result
                then
                  saveUserSite userId
                    {| sd_name := siteName; sd_slug := r_slug result;
                       sd_url := r_url result;
                       sd_filesCount := List.length files |} ;;
                  tg_fire (Reply (MsgDeploySuccess (r_url result)
                                                   (r_slug result) None))
                else
                  tg_fire (Reply (MsgDeployRejected (r_error result)))) ;;
               set_session None
           end
         else
           match files sess with
           | None => throw TypeError
           | Some files =>
               tg_fire (Reply (MsgFileUploaded fileName fileSize
                                               (List.length files)))
           end)
        (fun error => tg_fire (Reply MsgDownloadFailed)).

(** The handler registered for an update. *)
Definition handler (u : Update) : Js unit :=
  match u with
  | StartCommand => on_start
  | Action help => on_screen 0
  | Action stats => on_screen 1
  | Action my_sites => on_screen 2
  | Action upload => tg_fire (EditMessageText MsgChooseUploadMethod)
  | Action admin_panel => on_admin_screen 3
  | Action admin_list_sites => on_admin_screen 4
  | Action admin_server_stats => on_admin_screen 5
  | Action admin_delete_site => on_admin_delete_site
  | Action admin_restore_site => on_admin_restore_site
  | Action upload_zip => on_upload_zip
  | Action upload_files => on_upload_files
  | Action back_menu => on_back_menu
  | Action cancel => on_cancel
  | Action finish_upload => on_finish_upload
  | TextMessage text => on_text text
  | DocumentMessage d => on_document d
  end.

(** [bot.catch]: whatever escapes a handler is answered with the generic
    error message. *)
Definition handleUpdate (u : Update) : Js unit :=
  try_catch (handler u) (fun err => tg_fire (Reply MsgGenericError)).

(** One update processed to completion, and a conversation: the updates in
    the order they arrive, each with the world it meets. *)
Definition process (u : Update) (env : Env) (w : World) : World :=
  snd (handleUpdate u env w).

Fixpoint run (us : list (Update * Env)) (w : World) : World :=
  match us with
  | [] => w
  | (u, env) :: rest => run rest (process u env w)
  end.

(** ** Observations on a log *)

(** The deploy requests of a log: the arguments of each [uploadToHosting]
    call, in order. *)
Fixpoint deploys (l : list Effect) : list (option jsstr * list StagedFile) :=
  match l with
  | [] => []
  | PostUpload sn fs :: r => (sn, fs) :: deploys r
  | _ :: r => deploys r
  end.

(** A world in which nothing has been logged yet: what [process] logs from
    it is what this one update does. *)
Definition observe (s : option Session) (d : list UserSite) : World :=
  {| session := s; db := d; log := [] |}.

(** What [bot.catch] adds when a returned Bot API call is rejected. *)
Definition caught (env : Env) (c : TgCall) : list Effect :=
  if telegram_ok env c then [] else [Tg (Reply MsgGenericError)].

(** ** Sample conversations

    Concrete users, files and outcomes of the external calls, used to run
    the handlers. *)

Definition deployed : DeployResult :=
  {| ok := true; r_slug := U "my-portfolio-ab12";
     r_url := U "https://as-static-hosting.onrender.com/my-portfolio-ab12";
     r_error := [] |}.

Definition name_taken : DeployResult :=
  {| ok := false; r_slug := []; r_url := [];
     r_error := U "Site name already exists" |}.

(** User 7 is no admin; every external call succeeds; a file holds the three
    bytes [Man]. *)
Definition env_ok : Env :=
  {| from_id := 7; ADMIN_IDS := [1]; now := 1700000000;
     telegram_ok := fun _ => true;
     telegram_file := fun _ => Some (bytes_of "Man");
     hosting := fun _ _ => DeployReturns deployed;
     admin_api_ok := fun _ _ => true;
     mongo_connected := true |}.

(** As [env_ok], but the hosting API answers [ok: false]. *)
Definition env_rejected : Env :=
  {| from_id := 7; ADMIN_IDS := [1]; now := 1700000000;
     telegram_ok := fun _ => true;
     telegram_file := fun _ => Some (bytes_of "Man");
     hosting := fun _ _ => DeployReturns name_taken;
     admin_api_ok := fun _ _ => true;
     mongo_connected := true |}.

(** As [env_ok], but the request to the hosting API times out. *)
Definition env_timeout : Env :=
  {| from_id := 7; ADMIN_IDS := [1]; now := 1700000000;
     telegram_ok := fun _ => true;
     telegram_file := fun _ => Some (bytes_of "Man");
     hosting := fun _ _ =>
       DeployThrows None (U "timeout of 60000ms exceeded");
     admin_api_ok := fun _ _ => true;
     mongo_connected := true |}.

(** As [env_ok], but the update comes from user 1, an admin. *)
Definition env_admin : Env :=
  {| from_id := 1; ADMIN_IDS := [1]; now := 1700000000;
     telegram_ok := fun _ => true;
     telegram_file := fun _ => Some (bytes_of "Man");
     hosting := fun _ _ => DeployReturns deployed;
     admin_api_ok := fun _ _ => true;
     mongo_connected := true |}.

Definition site_zip : Document :=
  {| file_id := U "BQACAgQAAx0"; file_name := Some (U "site.zip");
     file_size := Some 38797312 |}.

Definition index_html : Document :=
  {| file_id := U "BQACAgQAAx1"; file_name := Some (U "index.html");
     file_size := Some 2048 |}.

Definition huge_zip : Document :=
  {| file_id := U "BQACAgQAAx2"; file_name := Some (U "huge.zip");
     file_size := Some 62914560 |}.

(** The session [upload_zip] or [upload_files] creates. *)
Definition new_session (t : UploadType) : Session :=
  {| state := Some waiting_for_name; uploadType := Some t;
     siteName := None; files := Some [] |}.

(** The session after the name [My Portfolio] has been entered and [fs] has
    been staged. *)
Definition named_session (t : UploadType) (fs : list StagedFile) : Session :=
  {| state := Some waiting_for_files; uploadType := Some t;
     siteName := Some (U "My Portfolio"); files := Some fs |}.

(** The session [admin_delete_site] creates. *)
Definition admin_delete_session : Session :=
  {| state := Some admin_delete; uploadType := None;
     siteName := None; files := None |}.

(** The file staged from a document with the given contents. *)
Definition staged (d : Document) (content : list byte) : StagedFile :=
  {| fileName := file_name d; fileData := base64 content |}.

(** A record of user 3 that already owns the slug [deployed] comes with. *)
Definition older_site : UserSite :=
  {| userId := 3; name := U "Old"; slug := U "my-portfolio-ab12";
     url := U "https://as-static-hosting.onrender.com/my-portfolio-ab12";
     filesCount := 4; uploadedAt := 1600000000; status := deleted |}.

(** ** Successful steps *)

(** A document is staged without incident: it is within the size limit, the
    progress message is delivered, the download yields [content] and the
    progress message is deleted. *)
Definition submission_ok (d : Document) (env : Env) (content : list byte)
  : Prop :=
  too_large (file_size d) = false /\
  telegram_ok env (Reply (MsgDownloading (file_name d))) = true /\
  telegram_file env (file_id d) = Some content /\
  telegram_ok env DeleteMessage = true.

(** A session with its file list replaced. *)
Definition with_files (sess : Session) (fs : list StagedFile) : Session :=
  {| state := state sess; uploadType := uploadType sess;
     siteName := siteName sess; files := Some fs |}.

(** The updates of a sequence of document submissions, and the files they
    stage. *)
Definition submissions (subs : list (Document * Env * list byte))
  : list (Update * Env) :=
  map (fun '(d, env, _) => (DocumentMessage d, env)) subs.

Definition staged_all (subs : list (Document * Env * list byte))
  : list StagedFile :=
  map (fun '(d, _, content) => staged d content) subs.

(** ** The life of a site name *)

(** The updates that may replace the session by a new one. *)
Definition starts_session (u : Update) : bool :=
  match u with
  | Action upload_zip | Action upload_files
  | Action admin_delete_site | Action admin_restore_site => true
  | _ => false
  end.

(** The session is gone, or it waits for files under the name [n]. *)
Definition keeps_name (n : jsstr) (s : option Session) : Prop :=
  match s with
  | None => True
  | Some sess =>
      state sess = Some waiting_for_files /\ siteName sess = Some n
  end.
(** ** Queries on the [UserSite] collection *)

Definition is_active (r : UserSite) : bool :=
  match status r with
  | active => true
  | deleted => false
  end.

(** [.sort({ uploadedAt: -1 })]: newest first.  The order among documents
    with the same timestamp is the server's choice; here they stay in the
    order in which the collection holds them, and nothing proved about the
    queries depends on it. *)
Fixpoint insert_newest_first (r : UserSite) (l : list UserSite)
  : list UserSite :=
  match l with
  | [] => [r]
  | x :: rest =>
      if uploadedAt x <? uploadedAt r then r :: l
      else x :: insert_newest_first r rest
  end.

Definition sort_newest_first (l : list UserSite) : list UserSite :=
  fold_right insert_newest_first [] l.

(** [getUserSites]: [UserSite.find({ userId, status: 'active' })], newest
    first; the [catch] turns a failed query into [[]]. *)
Definition getUserSites (uid : Z) : Js (list UserSite) :=
  env <- ask ;;
  if negb (mongo_connected env) then ret []
  else
    d <- get_db ;;
    ret (sort_newest_first
           (filter (fun r => (userId r =? uid) && is_active r) d)).

(** [getAllSites]: [UserSite.find()], newest first; [[]] when the query
    fails. *)
Definition getAllSites : Js (list UserSite) :=
  env <- ask ;;
  if negb (mongo_connected env) then ret []
  else
    d <- get_db ;;
    ret (sort_newest_first d).

(** [getTotalSitesCount]: [UserSite.countDocuments({ status: 'active' })];
    [0] when the query fails. *)
Definition getTotalSitesCount : Js nat :=
  env <- ask ;;
  if negb (mongo_connected env) then ret 0%nat
  else
    d <- get_db ;;
    ret (List.length (filter is_active d)).

(** [UserSite.findOne({ slug })] on the collection: the document a
    [findOneAndUpdate] with that slug would update. *)
Fixpoint findOne (sl : jsstr) (d : list UserSite) : option UserSite :=
  match d with
  | [] => None
  | r :: rest => if jsstr_eqb (slug r) sl then Some r else findOne sl rest
  end.

(** Everything a document holds besides its [status]. *)
Definition identity_of (r : UserSite)
  : Z * jsstr * jsstr * jsstr * nat * Z :=
  (userId r, name r, slug r, url r, filesCount r, uploadedAt r).

(** A document with its [status] replaced. *)
Definition with_status (r : UserSite) (st : SiteStatus) : UserSite :=
  {| userId := userId r; name := name r; slug := slug r; url := url r;
     filesCount := filesCount r; uploadedAt := uploadedAt r; status := st |}.

(** Newest first. *)
Fixpoint newest_first (l : list UserSite) : Prop :=
  match l with
  | [] => True
  | x :: rest =>
      (forall y, In y rest -> uploadedAt y <= uploadedAt x) /\
      newest_first rest
  end.

(** As [env_ok], but the connection to MongoDB is down. *)
Definition env_mongo_down : Env :=
  {| from_id := 1; ADMIN_IDS := [1]; now := 1700000000;
     telegram_ok := fun _ => true;
     telegram_file := fun _ => Some (bytes_of "Man");
     hosting := fun _ _ => DeployReturns deployed;
     admin_api_ok := fun _ _ => false;
     mongo_connected := false |}.

(** Two sites of user 7 and one of user 3. *)
Definition blog : UserSite :=
  {| userId := 7; name := U "Blog"; slug := U "blog-1a2b";
     url := U "https://as-static-hosting.onrender.com/blog-1a2b";
     filesCount := 3; uploadedAt := 1650000000; status := active |}.

Definition shop : UserSite :=
  {| userId := 7; name := U "Shop"; slug := U "shop-9z8y";
     url := U "https://as-static-hosting.onrender.com/shop-9z8y";
     filesCount := 12; uploadedAt := 1690000000; status := active |}.

Definition three_sites : list UserSite := [blog; older_site; shop].

(** ** Who may do what *)

(** The buttons whose handlers start with the admin guard. *)
Definition admin_only (a : ActionName) : bool :=
  match a with
  | admin_panel | admin_list_sites | admin_server_stats
  | admin_delete_site | admin_restore_site => true
  | _ => false
  end.

(** The button that opens the flow of an admin operation, the state it
    leaves the session in, the status it sets and the texts it sends. *)
Definition button_of (op : AdminOp) : ActionName :=
  match op with
  | OpDelete => admin_delete_site
  | OpRestore => admin_restore_site
  end.

Definition state_of (op : AdminOp) : SessionState :=
  match op with
  | OpDelete => admin_delete
  | OpRestore => admin_restore
  end.

Definition status_of (op : AdminOp) : SiteStatus :=
  match op with
  | OpDelete => deleted
  | OpRestore => active
  end.

Definition prompt_of (op : AdminOp) : Msg :=
  match op with
  | OpDelete => MsgDeletePrompt
  | OpRestore => MsgRestorePrompt
  end.

Definition progress_of (op : AdminOp) : Msg :=
  match op with
  | OpDelete => MsgDeleting
  | OpRestore => MsgRestoring
  end.

Definition done_of (op : AdminOp) (sl : jsstr) : Msg :=
  match op with
  | OpDelete => MsgDeleted sl
  | OpRestore => MsgRestored sl
  end.

Definition failed_of (op : AdminOp) : Msg :=
  match op with
  | OpDelete => MsgDeleteFailed
  | OpRestore => MsgRestoreFailed
  end.


(** ** What a log holds besides messages *)

(** The calls of a log that are not Bot API messages: downloads, deploy
    requests, writes to MongoDB and calls of the admin API. *)
Fixpoint external_calls (l : list Effect) : list Effect :=
  match l with
  | [] => []
  | Tg _ :: r => external_calls r
  | e :: r => e :: external_calls r
  end.

(** ** Sessions the handlers create *)

(** A site name as the text handler stores it: trimming it changes nothing,
    and it does not start with [/]. *)
Definition valid_name (n : jsstr) : Prop :=
  trim n = n /\ startsWith n (U "/") = false.

(** The shape of the sessions the handlers create and keep: while the name
    is awaited there is an upload type, no name and an empty file list;
    while files are awaited there is an upload type, a valid name and a file
    list; an admin session has a state and nothing else. *)
Definition wf_session (s : option Session) : Prop :=
  match s with
  | None => True
  | Some sess =>
      match state sess with
      | Some waiting_for_name =>
          uploadType sess <> None /\ siteName sess = None /\
          files sess = Some []
      | Some waiting_for_files =>
          uploadType sess <> None /\
          (exists n, siteName sess = Some n /\ valid_name n) /\
          (exists fs, files sess = Some fs)
      | Some admin_delete | Some admin_restore =>
          uploadType sess = None /\ siteName sess = None /\
          files sess = None
      | None => False
      end
  end.

(** A deploy request with a valid site name and at least one file. *)
Definition valid_deploy (p : option jsstr * list StagedFile) : Prop :=
  (exists n, fst p = Some n /\ valid_name n) /\ snd p <> [].

(** As [env_ok], but Telegram refuses to delete messages. *)
Definition env_delete_fails : Env :=
  {| from_id := 7; ADMIN_IDS := [1]; now := 1700000000;
     telegram_ok := fun c => match c with DeleteMessage => false | _ => true end;
     telegram_file := fun _ => Some (bytes_of "Man");
     hosting := fun _ _ => DeployReturns deployed;
     admin_api_ok := fun _ _ => true;
     mongo_connected := true |}.

(** A document that reports no size. *)
Definition unsized : Document :=
  {| file_id := U "BQACAgQAAx3"; file_name := Some (U "style.css");
     file_size := None |}.

(** ** Records *)

(** The [siteData] both finalize paths hand to [saveUserSite] after a deploy
    of [fs] under the name [sn] that was answered with [r]. *)
Definition site_data (sn : option jsstr) (r : DeployResult)
           (fs : list StagedFile) : SiteData :=
  {| sd_name := sn; sd_slug := r_slug r; sd_url := r_url r;
     sd_filesCount := List.length fs |}.

(** The collection [d] takes the document: it passes validation, the
    connection is up and its slug is not in the collection yet. *)
Definition accepts (env : Env) (d : list UserSite) (sd : SiteData) : bool :=
  required (sd_name sd) && required (Some (sd_slug sd))
  && required (Some (sd_url sd)) && mongo_connected env
  && negb (has_slug (sd_slug sd) d).

(** ** The groups of base64 *)

(** The 24-bit word of a group of three bytes, and of the one or two bytes
    that may be left at the end. *)
Definition word3 (a b c : byte) : N :=
  N.lor (N.lor (N.shiftl (Byte.to_N a) 16) (N.shiftl (Byte.to_N b) 8))
        (Byte.to_N c).

Definition word2 (a b : byte) : N :=
  N.lor (N.shiftl (Byte.to_N a) 16) (N.shiftl (Byte.to_N b) 8).

Definition word1 (a : byte) : N := N.shiftl (Byte.to_N a) 16.

(** The four characters of a 24-bit word. *)
Definition char1 (n : N) : N := base64_digit (N.shiftr n 18).
Definition char2 (n : N) : N := base64_digit (N.land (N.shiftr n 12) 63).
Definition char3 (n : N) : N := base64_digit (N.land (N.shiftr n 6) 63).
Definition char4 (n : N) : N := base64_digit (N.land n 63).

(** ** Basic facts *)

Example base64_Man : base64 (bytes_of "Man") = U "TWFu".
Proof. reflexivity. Qed.

Example base64_Ma : base64 (bytes_of "Ma") = U "TWE=".
Proof. reflexivity. Qed.

Example base64_M : base64 (bytes_of "M") = U "TQ==".
Proof. reflexivity. Qed.

Example trim_example : trim (U "  My Portfolio ") = U "My Portfolio".
Proof. reflexivity. Qed.

Lemma deploys_app (l1 l2 : list Effect) :
  deploys (l1 ++ l2) = deploys l1 ++ deploys l2.
Proof.
  induction l1 as [|e l1 IH]; simpl; [reflexivity|].
  destruct e; simpl; rewrite ?IH; reflexivity.
Qed.

Lemma jsstr_eqb_eq (a b : jsstr) : jsstr_eqb a b = true <-> a = b.
Proof.
  revert b; induction a as [|x a IH]; intros [|y b]; simpl;
    try (split; [discriminate | congruence]); try tauto.
  rewrite andb_true_iff, N.eqb_eq, IH. split.
  - intros [-> ->]; reflexivity.
  - intros E; inversion E; auto.
Qed.

Lemma has_slug_In (sl : jsstr) (d : list UserSite) :
  has_slug sl d = true <-> In sl (map slug d).
Proof.
  unfold has_slug. rewrite existsb_exists, in_map_iff. split.
  - intros (r & Hr & E). apply jsstr_eqb_eq in E. eauto.
  - intros (r & E & Hr). exists r. split; [assumption|].
    apply jsstr_eqb_eq; assumption.
Qed.

Lemma state_is_spec (s : option Session) (st : SessionState) :
  state_is s st = true <-> exists sess, s = Some sess /\ state sess = Some st.
Proof.
  split.
  - destruct s as [sess|]; simpl; [|discriminate].
    destruct (state sess) as [[]|] eqn:E, st; try discriminate; eauto.
  - intros (sess & -> & E). simpl. rewrite E. destruct st; reflexivity.
Qed.

Lemma MAX_FILE_SIZE_value : MAX_FILE_SIZE = 52428800.
Proof. reflexivity. Qed.

Lemma too_large_spec (sz : option Z) :
  too_large sz = true <-> exists n, sz = Some n /\ 50 * 1024 * 1024 < n.
Proof.
  unfold too_large, MAX_FILE_SIZE. destruct sz as [n|].
  - rewrite Z.ltb_lt. split; [eauto | intros (m & [= ->] & H); exact H].
  - split; [discriminate | intros (m & [=] & _)].
Qed.

(** Unfolding of the handlers, of the calls they make and of the monad. *)
Ltac js_unfold :=
  cbv beta iota zeta delta
    [process handleUpdate handler
     on_start on_screen on_admin_screen on_admin_delete_site
     on_admin_restore_site on_upload_zip on_upload_files on_back_menu
     on_cancel on_finish_upload admin_text on_text push_file on_document
     saveUserSite UserSite_save setStatusBySlug deleteSiteBySlug
     restoreSiteBySlug downloadTelegramFile uploadToHosting postAdmin
     tg_await tg_fire isAdmin the_session
     try_catch bind ret throw emit ask get_session set_session get_db set_db
     caught observe];
  simpl.

(** Case analysis on whatever the computation branches on next. *)
Ltac case_branch :=
  match goal with
  | |- context [match ?x with _ => _ end] =>
      lazymatch x with
      | context [match _ with _ => _ end] => fail
      | _ => destruct x eqn:?
      end
  end.

(** ** Oversized files *)

(** C2: a document whose reported size exceeds 50 * 1024 * 1024 bytes is
    rejected: the session and the collection are left exactly as they were,
    nothing is downloaded, staged, deployed or saved, and the only thing the
    handler does is reply -- with the file-too-large message when the session
    is waiting for files (and with the start-an-upload-first notice when it is
    not).  Should that reply be rejected by Telegram, [bot.catch] adds the
    generic error message. *)
Theorem C2_oversized_file_is_rejected :
  forall (d : Document) (n : Z) (env : Env) (w : World),
    file_size d = Some n ->
    50 * 1024 * 1024 < n ->
    let w' := process (DocumentMessage d) env w in
    let notice := if state_is (session w) waiting_for_files
                  then MsgFileTooLarge else MsgStartUploadFirst in
    session w' = session w /\
    db w' = db w /\
    log w' = log w ++ Tg (Reply notice) :: caught env (Reply notice).
Proof.
  intros d n env w Hsz Hn. cbv zeta.
  assert (Hbig : too_large (file_size d) = true)
    by (apply too_large_spec; eauto).
  destruct w as [s d0 l]. js_unfold.
  destruct (state_is s waiting_for_files); js_unfold.
  - rewrite Hbig.
    destruct (telegram_ok env (Reply MsgFileTooLarge)); js_unfold;
      rewrite <- ?app_assoc; auto.
  - destruct (telegram_ok env (Reply MsgStartUploadFirst)); js_unfold;
      rewrite <- ?app_assoc; auto.
Qed.

Lemma C2_witness :
  session (process (DocumentMessage huge_zip) env_ok
             (observe (Some (named_session multiple [])) [])) =
    Some (named_session multiple []) /\
  log (process (DocumentMessage huge_zip) env_ok
         (observe (Some (named_session multiple [])) [])) =
    [Tg (Reply MsgFileTooLarge)].
Proof.
  destruct (C2_oversized_file_is_rejected huge_zip 62914560 env_ok
              (observe (Some (named_session multiple [])) [])
              eq_refl eq_refl) as (Hs & _ & Hl).
  split; [exact Hs | exact Hl].
Defined.

(** ** Finishing with nothing staged *)

(** C3: in a session that waits for files and has none staged,
    [finish_upload] answers the callback with the no-files notice and does
    nothing else: no deploy request, no save, and the session and the
    collection are unchanged. *)
Theorem C3_finish_with_nothing_staged :
  forall (sess : Session) (env : Env) (w : World),
    session w = Some sess ->
    state sess = Some waiting_for_files ->
    files sess = Some [] ->
    let w' := process (Action finish_upload) env w in
    session w' = session w /\
    db w' = db w /\
    log w' = log w ++ Tg (AnswerCbQuery MsgNoFilesYet)
                        :: caught env (AnswerCbQuery MsgNoFilesYet) /\
    deploys (log w') = deploys (log w).
Proof.
  intros sess env [s d0 l] Hs _ Hf. simpl in Hs; subst s.
  js_unfold. rewrite Hf; js_unfold.
  destruct (telegram_ok env (AnswerCbQuery MsgNoFilesYet)); js_unfold;
    rewrite <- ?app_assoc, ?deploys_app; simpl;
    rewrite ?app_nil_r; auto.
Qed.

Lemma C3_witness :
  process (Action finish_upload) env_ok
    (observe (Some (named_session multiple [])) []) =
  {| session := Some (named_session multiple []); db := [];
     log := [Tg (AnswerCbQuery MsgNoFilesYet)] |}.
Proof.
  destruct (C3_finish_with_nothing_staged (named_session multiple []) env_ok
              (observe (Some (named_session multiple [])) [])
              eq_refl eq_refl eq_refl) as (Hs & Hd & Hl & _).
  reflexivity.
Defined.

(** ** Finishing in a session without a file list *)

(** C10: when the session has no [files] field -- as the sessions created by
    [admin_delete_site] and [admin_restore_site] -- the guard of
    [finish_upload] throws a [TypeError] instead of answering with the
    no-files notice; the error leaves the handler, [bot.catch] replies with
    the generic error message, and the session is left as it was. *)
Theorem C10_finish_without_file_list :
  forall (sess : Session) (env : Env) (w : World),
    session w = Some sess ->
    files sess = None ->
    on_finish_upload env w = (Throw TypeError, w) /\
    process (Action finish_upload) env w =
      {| session := Some sess; db := db w;
         log := log w ++ [Tg (Reply MsgGenericError)] |}.
Proof.
  intros sess env [s d0 l] Hs Hf. simpl in Hs; subst s.
  js_unfold. rewrite Hf. split; reflexivity.
Qed.

Lemma C10_witness :
  process (Action finish_upload) env_admin
    (process (Action admin_delete_site) env_admin (observe None [])) =
  {| session := Some admin_delete_session; db := [];
     log := [Tg (EditMessageText MsgDeletePrompt);
             Tg (Reply MsgGenericError)] |}.
Proof.
  exact (proj2 (C10_finish_without_file_list admin_delete_session env_admin
                  (process (Action admin_delete_site) env_admin
                     (observe None []))
                  eq_refl eq_refl)).
Defined.

(** ** Staging a file *)

(** One document staged without incident in a session that is not in archive
    mode: the file is appended to the list, nothing is deployed. *)
Lemma document_staged (d : Document) (env : Env) (content : list byte)
      (sess : Session) (fs : list StagedFile) (w : World) :
  session w = Some sess ->
  state sess = Some waiting_for_files ->
  uploadType_is_zip sess = false ->
  files sess = Some fs ->
  submission_ok d env content ->
  process (DocumentMessage d) env w =
    {| session := Some (with_files sess (fs ++ [staged d content]));
       db := db w;
       log := log w ++
              [Tg (Reply (MsgDownloading (file_name d)));
               GetFile (file_id d);
               Tg DeleteMessage;
               Tg (Reply (MsgFileUploaded (file_name d) (file_size d)
                            (List.length (fs ++ [staged d content]))))] |}.
Proof.
  intros Hs Hst Hzip Hfs (Hsz & Hr & Hdl & Hdel).
  destruct w as [s d0 l]; simpl in Hs; subst s.
  js_unfold. rewrite Hst; simpl. rewrite Hsz, Hr; simpl.
  rewrite Hdl; simpl. rewrite Hfs; simpl. rewrite Hdel; simpl.
  unfold uploadType_is_zip in *; simpl. rewrite Hzip.
  repeat (rewrite <- app_assoc; simpl). reflexivity.
Qed.

(** A document sent while no session is active is answered with the
    start-an-upload-first notice; nothing is staged. *)
Lemma document_without_session (d : Document) (env : Env) (w : World) :
  session w = None ->
  process (DocumentMessage d) env w =
    {| session := None; db := db w;
       log := log w ++ Tg (Reply MsgStartUploadFirst)
                       :: caught env (Reply MsgStartUploadFirst) |}.
Proof.
  destruct w as [s d0 l]; simpl; intros ->. js_unfold.
  destruct (telegram_ok env (Reply MsgStartUploadFirst)); simpl;
    rewrite <- ?app_assoc; reflexivity.
Qed.

(** ** The session after a deploy attempt *)

(** [finish_upload] with files staged always ends with the session cleared,
    whatever the outcome of the notices, of the deploy request and of the
    save. *)
Lemma finish_upload_clears_session (sess : Session) (fs : list StagedFile)
      (env : Env) (w : World) :
  session w = Some sess ->
  files sess = Some fs ->
  fs <> [] ->
  session (process (Action finish_upload) env w) = None.
Proof.
  intros Hs Hfs Hne. destruct w as [s d0 l]; simpl in Hs; subst s.
  js_unfold. rewrite Hfs. destruct fs as [|f fs]; [congruence|].
  repeat (simpl; try reflexivity; case_branch).
Qed.

(** In archive mode, when the deploy request throws, the [catch] of the
    document handler replies with the download-failed message and leaves the
    session as it is: still waiting for files, with the file staged. *)
Lemma archive_failed_deploy_keeps_session (d : Document) (env : Env)
      (content : list byte) (sess : Session) (fs : list StagedFile)
      (re : option jsstr) (m : jsstr) (w : World) :
  session w = Some sess ->
  state sess = Some waiting_for_files ->
  uploadType sess = Some zip ->
  files sess = Some fs ->
  submission_ok d env content ->
  telegram_ok env (Reply MsgDeploying) = true ->
  hosting env (siteName sess) (fs ++ [staged d content]) = DeployThrows re m ->
  process (DocumentMessage d) env w =
    {| session := Some (with_files sess (fs ++ [staged d content]));
       db := db w;
       log := log w ++
              [Tg (Reply (MsgDownloading (file_name d)));
               GetFile (file_id d);
               Tg DeleteMessage;
               Tg (Reply MsgDeploying);
               PostUpload (siteName sess) (fs ++ [staged d content]);
               Tg (Reply MsgDownloadFailed)] |}.
Proof.
  intros Hs Hst Hzip Hfs (Hsz & Hr & Hdl & Hdel) Hdep Hh.
  destruct w as [s d0 l]; simpl in Hs; subst s.
  js_unfold. rewrite Hst; simpl. rewrite Hsz, Hr; simpl.
  rewrite Hdl; simpl. rewrite Hfs; simpl. rewrite Hdel; simpl.
  unfold uploadType_is_zip; simpl. rewrite Hzip, Hdep; simpl.
  unfold staged in Hh. rewrite Hh; simpl.
  repeat (rewrite <- app_assoc; simpl).
  unfold with_files, staged. rewrite Hzip. reflexivity.
Qed.

(** C1: the archive path at a deploy request that times out.  The file
    [site.zip] is staged and the deploy request is made; the request throws,
    and the update ends with the session still waiting for files with
    [site.zip] staged -- it is not cleared (contrast
    [finish_upload_clears_session]). *)
Theorem C1_archive_session_survives_failed_deploy :
  process (DocumentMessage site_zip) env_timeout
    (observe (Some (named_session zip [])) []) =
  {| session :=
       Some (named_session zip [staged site_zip (bytes_of "Man")]);
     db := [];
     log := [Tg (Reply (MsgDownloading (Some (U "site.zip"))));
             GetFile (U "BQACAgQAAx0");
             Tg DeleteMessage;
             Tg (Reply MsgDeploying);
             PostUpload (Some (U "My Portfolio"))
                        [staged site_zip (bytes_of "Man")];
             Tg (Reply MsgDownloadFailed)] |}.
Proof. reflexivity. Qed.

(** C4: an archive session after a deploy request that timed out.  The
    session was not reset, so the next document is not answered with the
    start-an-upload-first notice: it is staged as a second file and the
    deploy request is made again, now with two files. *)
Theorem C4_second_archive_file_after_failed_deploy :
  let w := run [(DocumentMessage site_zip, env_timeout);
                (DocumentMessage index_html, env_ok)]
               (observe (Some (named_session zip [])) []) in
  deploys (log w) =
    [(Some (U "My Portfolio"), [staged site_zip (bytes_of "Man")]);
     (Some (U "My Portfolio"), [staged site_zip (bytes_of "Man");
                                staged index_html (bytes_of "Man")])] /\
  ~ In (Tg (Reply MsgStartUploadFirst)) (log w) /\
  map filesCount (db w) = [2%nat].
Proof.
  cbv zeta. split; [reflexivity|]. split; [|reflexivity].
  vm_compute. intuition discriminate.
Qed.

(** ** Several files, then finish *)

Lemma with_files_same (sess : Session) (fs : list StagedFile) :
  files sess = Some fs -> with_files sess fs = sess.
Proof. destruct sess; simpl; intros ->; reflexivity. Qed.

(** A sequence of documents staged without incident appends their files, in
    the order of arrival, and requests no deploy. *)
Lemma run_submissions (subs : list (Document * Env * list byte)) :
  forall (sess : Session) (fs0 : list StagedFile) (w : World),
    session w = Some sess ->
    state sess = Some waiting_for_files ->
    uploadType_is_zip sess = false ->
    files sess = Some fs0 ->
    Forall (fun '(d, env, content) => submission_ok d env content) subs ->
    session (run (submissions subs) w) =
      Some (with_files sess (fs0 ++ staged_all subs)) /\
    db (run (submissions subs) w) = db w /\
    deploys (log (run (submissions subs) w)) = deploys (log w).
Proof.
  induction subs as [|[[d env] content] subs IH];
    intros sess fs0 w Hs Hst Hzip Hfs Hall; simpl.
  - rewrite app_nil_r, with_files_same by assumption. auto.
  - inversion Hall as [|x xs Hok Hrest]; subst.
    rewrite (document_staged d env content sess fs0 w) by assumption.
    set (w1 := {| session := _ |}).
    destruct (IH (with_files sess (fs0 ++ [staged d content]))
                 (fs0 ++ [staged d content]) w1)
      as (Hs' & Hd' & Hl'); try reflexivity; try assumption.
    rewrite Hs', Hd', Hl'. unfold w1; simpl.
    rewrite <- app_assoc, deploys_app; simpl. rewrite app_nil_r.
    repeat split; reflexivity.
Qed.

(** Whatever becomes of the notices, of the request and of the save,
    [finish_upload] requests at most one deploy, and only with the session's
    site name and file list; it does request it when both notices are
    delivered. *)
Lemma finish_upload_deploys (sess : Session) (fs : list StagedFile)
      (env : Env) (w : World) :
  session w = Some sess ->
  files sess = Some fs ->
  fs <> [] ->
  let w' := process (Action finish_upload) env w in
  (deploys (log w') = deploys (log w) \/
   deploys (log w') = deploys (log w) ++ [(siteName sess, fs)]) /\
  (telegram_ok env (AnswerCbQuery MsgDeployingToast) = true ->
   telegram_ok env (EditMessageText MsgDeploying) = true ->
   deploys (log w') = deploys (log w) ++ [(siteName sess, fs)]).
Proof.
  intros Hs Hfs Hne. destruct w as [s d0 l]; simpl in Hs; subst s.
  cbv zeta. js_unfold. rewrite Hfs. destruct fs as [|f fs]; [congruence|].
  repeat (simpl; case_branch);
    simpl; repeat (rewrite deploys_app; simpl); rewrite ?app_nil_r;
    split; auto; discriminate.
Qed.

(** C5: in multiple-files mode, documents staged without incident followed
    by [finish_upload].  Staging requests no deploy and keeps the files in
    the order of submission; [finish_upload] then requests at most one deploy
    -- exactly one once its two progress notices are delivered -- with the
    session's site name and the staged files in exactly that order. *)
Theorem C5_multiple_files_deployed_once_in_order :
  forall (subs : list (Document * Env * list byte))
         (sess : Session) (fs0 : list StagedFile) (env : Env) (w : World),
    session w = Some sess ->
    state sess = Some waiting_for_files ->
    uploadType sess = Some multiple ->
    files sess = Some fs0 ->
    Forall (fun '(d, env, content) => submission_ok d env content) subs ->
    fs0 ++ staged_all subs <> [] ->
    let w1 := run (submissions subs) w in
    let w2 := process (Action finish_upload) env w1 in
    session w1 = Some (with_files sess (fs0 ++ staged_all subs)) /\
    deploys (log w1) = deploys (log w) /\
    (deploys (log w2) = deploys (log w) \/
     deploys (log w2) =
       deploys (log w) ++ [(siteName sess, fs0 ++ staged_all subs)]) /\
    (telegram_ok env (AnswerCbQuery MsgDeployingToast) = true ->
     telegram_ok env (EditMessageText MsgDeploying) = true ->
     deploys (log w2) =
       deploys (log w) ++ [(siteName sess, fs0 ++ staged_all subs)]).
Proof.
  intros subs sess fs0 env w Hs Hst Hmul Hfs Hall Hne. cbv zeta.
  assert (Hzip : uploadType_is_zip sess = false)
    by (unfold uploadType_is_zip; rewrite Hmul; reflexivity).
  destruct (run_submissions subs sess fs0 w Hs Hst Hzip Hfs Hall)
    as (Hs1 & _ & Hl1).
  destruct (finish_upload_deploys
              (with_files sess (fs0 ++ staged_all subs))
              (fs0 ++ staged_all subs) env (run (submissions subs) w)
              Hs1 eq_refl Hne) as (Hmost & Hone).
  simpl in Hmost, Hone. rewrite Hl1 in Hmost, Hone. auto.
Qed.

Lemma C5_witness :
  deploys (log (process (Action finish_upload) env_ok
                  (run (submissions
                          [(index_html, env_ok, bytes_of "Man");
                           (site_zip, env_ok, bytes_of "Man");
                           (index_html, env_ok, bytes_of "Man")])
                       (observe (Some (named_session multiple [])) [])))) =
  [(Some (U "My Portfolio"),
    [staged index_html (bytes_of "Man");
     staged site_zip (bytes_of "Man");
     staged index_html (bytes_of "Man")])].
Proof.
  refine (proj2 (proj2 (proj2
    (C5_multiple_files_deployed_once_in_order
       [(index_html, env_ok, bytes_of "Man");
        (site_zip, env_ok, bytes_of "Man");
        (index_html, env_ok, bytes_of "Man")]
       (named_session multiple []) [] env_ok
       (observe (Some (named_session multiple [])) [])
       eq_refl eq_refl eq_refl eq_refl _ _))) eq_refl eq_refl).
  - repeat (apply Forall_cons;
            [unfold submission_ok; repeat split; reflexivity|]).
    apply Forall_nil.
  - simpl. discriminate.
Defined.

(** ** Entering the site name *)

(** The text handler in a session that waits for a name. *)
Lemma on_text_waiting_for_name (text : jsstr) (env : Env) (w : World)
      (sess : Session) :
  session w = Some sess ->
  state sess = Some waiting_for_name ->
  process (TextMessage text) env w =
    if startsWith (trim text) (U "/") then w
    else
      {| session := Some {| state := Some waiting_for_files;
                            uploadType := uploadType sess;
                            siteName := Some (trim text);
                            files := files sess |};
         db := db w;
         log := log w ++
                [Tg (Reply (if uploadType_is_zip sess
                            then MsgSiteNameZip (trim text)
                            else MsgSiteNameMultiple (trim text)))] |}.
Proof.
  intros Hs Hst. destruct w as [s d0 l]; simpl in Hs; subst s.
  js_unfold. rewrite Hst; simpl.
  destruct (startsWith (trim text) (U "/")); simpl; [reflexivity|].
  destruct (uploadType_is_zip sess); reflexivity.
Qed.

(** No update other than the ones that start a session changes the name of
    a session that waits for files: the session stays as named, or it is
    cleared. *)
Lemma process_keeps_name (n : jsstr) (u : Update) (env : Env) (w : World) :
  starts_session u = false ->
  keeps_name n (session w) ->
  keeps_name n (session (process u env w)).
Proof.
  intros Hu Hk. destruct w as [[sess|] d0 l]; simpl in Hk.
  - destruct Hk as [Hst Hn].
    destruct u as [|a|text|d]; [|destruct a| |]; try discriminate Hu;
      js_unfold; rewrite ?Hst; simpl;
      repeat (case_branch; simpl; rewrite ?Hst);
      simpl; auto.
  - destruct u as [|a|text|d]; [|destruct a| |]; try discriminate Hu;
      js_unfold; repeat (case_branch; simpl); simpl; auto.
Qed.

Lemma run_keeps_name (n : jsstr) (us : list (Update * Env)) :
  forall w : World,
    Forall (fun '(u, _) => starts_session u = false) us ->
    keeps_name n (session w) ->
    keeps_name n (session (run us w)).
Proof.
  induction us as [|[u env] us IH]; intros w Hall Hk; simpl; [assumption|].
  inversion Hall; subst. apply IH; [assumption|].
  apply process_keeps_name; assumption.
Qed.

(** C7: in a session that waits for a name, a text whose trimmed form starts
    with [/] changes nothing at all -- no field, no reply; any other text
    sets [siteName] to the trimmed text and moves the session to
    [waiting_for_files].  From then on, as long as no new session is started
    in its place, the session keeps that name until it is cleared. *)
Theorem C7_submit_name :
  forall (text : jsstr) (env : Env) (w : World) (sess : Session),
    session w = Some sess ->
    state sess = Some waiting_for_name ->
    let w' := process (TextMessage text) env w in
    (startsWith (trim text) (U "/") = true -> w' = w) /\
    (startsWith (trim text) (U "/") = false ->
     session w' = Some {| state := Some waiting_for_files;
                          uploadType := uploadType sess;
                          siteName := Some (trim text);
                          files := files sess |} /\
     db w' = db w /\
     forall us : list (Update * Env),
       Forall (fun '(u, _) => starts_session u = false) us ->
       keeps_name (trim text) (session (run us w'))).
Proof.
  intros text env w sess Hs Hst. cbv zeta.
  rewrite (on_text_waiting_for_name text env w sess Hs Hst).
  split; intros ->; [reflexivity|].
  split; [reflexivity|]. split; [reflexivity|].
  intros us Hus. apply run_keeps_name; [assumption|].
  simpl. auto.
Qed.

Lemma C7_witness :
  (process (TextMessage (U " /start ")) env_ok
     (observe (Some (new_session multiple)) []) =
   observe (Some (new_session multiple)) []) /\
  keeps_name (U "My Portfolio")
    (session
       (run [(DocumentMessage index_html, env_ok);
             (TextMessage (U "Another name"), env_ok);
             (DocumentMessage huge_zip, env_ok)]
            (process (TextMessage (U " My Portfolio ")) env_ok
               (observe (Some (new_session multiple)) [])))).
Proof.
  split.
  - exact (proj1 (C7_submit_name (U " /start ") env_ok
                    (observe (Some (new_session multiple)) [])
                    (new_session multiple) eq_refl eq_refl) eq_refl).
  - refine (proj2 (proj2 (proj2 (C7_submit_name (U " My Portfolio ") env_ok
                    (observe (Some (new_session multiple)) [])
                    (new_session multiple) eq_refl eq_refl) eq_refl)) _ _).
    repeat (apply Forall_cons; [reflexivity|]). apply Forall_nil.
Defined.

(** ** An empty site name *)

(** C8, the claim at a text of three spaces: the trimmed text is empty, and
    the handler takes it as the name -- [siteName] becomes the empty string,
    the session moves on to [waiting_for_files] and the reply is the usual
    request for the archive, not a request to enter the name again. *)
Lemma C8_empty_name_is_taken :
  let w' := process (TextMessage (U "   ")) env_ok
              (observe (Some (new_session zip)) []) in
  trim (U "   ") = [] /\
  session w' = Some {| state := Some waiting_for_files;
                       uploadType := Some zip;
                       siteName := Some [];
                       files := Some [] |} /\
  log w' = [Tg (Reply (MsgSiteNameZip []))].
Proof. cbv zeta. repeat split; reflexivity. Qed.

(** C8, as the code has it: a text that is empty once trimmed is a name like
    any other.  [siteName] is set to the empty string, the session moves to
    [waiting_for_files], and the user is asked for the files. *)
Theorem C8_empty_name_accepted :
  forall (text : jsstr) (env : Env) (w : World) (sess : Session),
    session w = Some sess ->
    state sess = Some waiting_for_name ->
    trim text = [] ->
    process (TextMessage text) env w =
      {| session := Some {| state := Some waiting_for_files;
                            uploadType := uploadType sess;
                            siteName := Some [];
                            files := files sess |};
         db := db w;
         log := log w ++
                [Tg (Reply (if uploadType_is_zip sess
                            then MsgSiteNameZip []
                            else MsgSiteNameMultiple []))] |}.
Proof.
  intros text env w sess Hs Hst Hempty.
  rewrite (on_text_waiting_for_name text env w sess Hs Hst), Hempty.
  reflexivity.
Qed.

Lemma C8_witness :
  process (TextMessage (U "   ")) env_ok
    (observe (Some (new_session multiple)) []) =
  {| session := Some {| state := Some waiting_for_files;
                        uploadType := Some multiple;
                        siteName := Some [];
                        files := Some [] |};
     db := [];
     log := [Tg (Reply (MsgSiteNameMultiple []))] |}.
Proof.
  exact (C8_empty_name_accepted (U "   ") env_ok
           (observe (Some (new_session multiple)) [])
           (new_session multiple) eq_refl eq_refl eq_refl).
Defined.

(** ** Soft delete and restore *)

Lemma findOne_has_slug (sl : jsstr) (d : list UserSite) :
  has_slug sl d = match findOne sl d with Some _ => true | None => false end.
Proof.
  induction d as [|r d IH]; simpl; [reflexivity|].
  destruct (jsstr_eqb (slug r) sl); simpl; [reflexivity | exact IH].
Qed.

Lemma findOne_slug (sl : jsstr) (d : list UserSite) (r : UserSite) :
  findOne sl d = Some r -> slug r = sl /\ In r d.
Proof.
  induction d as [|x d IH]; simpl; [discriminate|].
  destruct (jsstr_eqb (slug x) sl) eqn:E.
  - intros [= ->]. apply jsstr_eqb_eq in E. auto.
  - intros H. destruct (IH H). auto.
Qed.

(** [findOneAndUpdate] finds what [findOne] finds, and replaces it where it
    stands. *)
Lemma findOneAndUpdate_spec (sl : jsstr) (st : SiteStatus)
      (d : list UserSite) :
  match findOne sl d with
  | None => findOneAndUpdate sl st d = None
  | Some r =>
      exists pre post,
        d = pre ++ r :: post /\
        has_slug sl pre = false /\
        findOneAndUpdate sl st d = Some (pre ++ with_status r st :: post)
  end.
Proof.
  induction d as [|x d IH]; simpl; [reflexivity|].
  destruct (jsstr_eqb (slug x) sl) eqn:E.
  - exists [], d. repeat split; reflexivity.
  - destruct (findOne sl d) as [r|].
    + destruct IH as (pre & post & -> & Hpre & ->).
      exists (x :: pre), post. simpl. unfold has_slug in *. simpl.
      rewrite E, Hpre. repeat split; reflexivity.
    + rewrite IH. reflexivity.
Qed.

Lemma findOne_app (sl : jsstr) (pre post : list UserSite) (r : UserSite) :
  has_slug sl pre = false -> slug r = sl ->
  findOne sl (pre ++ r :: post) = Some r.
Proof.
  intros Hpre Hr. induction pre as [|x pre IH]; simpl.
  - replace (jsstr_eqb (slug r) sl) with true; [reflexivity|].
    symmetry. apply jsstr_eqb_eq. exact Hr.
  - unfold has_slug in Hpre. simpl in Hpre.
    apply orb_false_iff in Hpre as [-> Hpre]. apply IH. exact Hpre.
Qed.

(** The outcome of [deleteSiteBySlug] and [restoreSiteBySlug] in full. *)
Lemma setStatusBySlug_run (sl : jsstr) (st : SiteStatus) (env : Env)
      (w : World) :
  setStatusBySlug sl st env w =
    let w1 := {| session := session w; db := db w;
                 log := log w ++ [MongoSetStatus sl st] |} in
    if mongo_connected env then
      match findOneAndUpdate sl st (db w) with
      | Some d' =>
          (Normal true,
           {| session := session w; db := d';
              log := log w ++ [MongoSetStatus sl st] |})
      | None => (Normal false, w1)
      end
    else (Normal false, w1).
Proof.
  destruct w as [s d l]. js_unfold.
  destruct (mongo_connected env); simpl; [|reflexivity].
  destruct (findOneAndUpdate sl st d); reflexivity.
Qed.

(** X1: [deleteSiteBySlug] and [restoreSiteBySlug] never throw.  They answer
    [true] exactly when the connection is up and the collection holds the
    slug; then the first document with that slug gets the new status, where
    it stands, and nothing else changes -- no document is removed, none is
    added, no other field is touched.  When they answer [false] the
    collection is as it was.  The session is never touched. *)
Theorem setStatusBySlug_is_soft :
  forall (sl : jsstr) (st : SiteStatus) (env : Env) (w : World),
    let found := mongo_connected env && has_slug sl (db w) in
    let w' := snd (setStatusBySlug sl st env w) in
    fst (setStatusBySlug sl st env w) = Normal found /\
    session w' = session w /\
    map identity_of (db w') = map identity_of (db w) /\
    (found = false -> db w' = db w) /\
    (found = true ->
     exists pre r post,
       db w = pre ++ r :: post /\
       slug r = sl /\
       has_slug sl pre = false /\
       db w' = pre ++ with_status r st :: post).
Proof.
  intros sl st env w. cbv zeta. rewrite setStatusBySlug_run.
  rewrite findOne_has_slug.
  pose proof (findOneAndUpdate_spec sl st (db w)) as Hspec.
  destruct (mongo_connected env); simpl.
  - destruct (findOne sl (db w)) as [r|] eqn:Hfind.
    + destruct Hspec as (pre & post & Hd & Hpre & Hupd).
      rewrite Hupd; simpl. rewrite Hd.
      repeat split; try discriminate.
      * rewrite !map_app. reflexivity.
      * intros _. exists pre, r, post.
        destruct (findOne_slug _ _ _ Hfind) as [Hsl _]. auto.
    + rewrite Hspec; simpl. repeat split; discriminate.
  - repeat split; discriminate.
Qed.

Lemma setStatusBySlug_is_soft_witness :
  fst (deleteSiteBySlug (U "blog-1a2b") env_ok (observe None three_sites)) =
    Normal true /\
  db (snd (deleteSiteBySlug (U "blog-1a2b") env_ok
             (observe None three_sites))) =
    [with_status blog deleted; older_site; shop] /\
  db (snd (deleteSiteBySlug (U "no-such-site") env_ok
             (observe None three_sites))) = three_sites.
Proof.
  destruct (setStatusBySlug_is_soft (U "blog-1a2b") deleted env_ok
              (observe None three_sites)) as (Hr & _ & _ & _ & _).
  destruct (setStatusBySlug_is_soft (U "no-such-site") deleted env_ok
              (observe None three_sites)) as (_ & _ & _ & Hsame & _).
  split; [exact Hr|]. split; [reflexivity|]. exact (Hsame eq_refl).
Defined.

Lemma with_status_same (r : UserSite) : with_status r (status r) = r.
Proof. destruct r; reflexivity. Qed.

Lemma findOneAndUpdate_found (sl : jsstr) (st : SiteStatus)
      (pre post : list UserSite) (r : UserSite) :
  has_slug sl pre = false -> slug r = sl ->
  findOneAndUpdate sl st (pre ++ r :: post)
  = Some (pre ++ with_status r st :: post).
Proof.
  intros Hpre Hr.
  pose proof (findOneAndUpdate_spec sl st (pre ++ r :: post)) as Hspec.
  rewrite (findOne_app sl pre post r Hpre Hr) in Hspec.
  destruct Hspec as (pre' & post' & Hd & Hpre' & ->).
  f_equal. clear - Hd Hpre Hpre' Hr.
  revert pre' Hd Hpre'. induction pre as [|x pre IH]; intros [|y pre'] Hd Hp'.
  - injection Hd as <-. reflexivity.
  - injection Hd as <- _. unfold has_slug in Hp'. simpl in Hp'.
    apply orb_false_iff in Hp' as [Hy _].
    assert (jsstr_eqb (slug r) sl = true) by (apply jsstr_eqb_eq; exact Hr).
    congruence.
  - injection Hd as -> _. unfold has_slug in Hpre. simpl in Hpre.
    apply orb_false_iff in Hpre as [Hx _].
    assert (jsstr_eqb (slug r) sl = true) by (apply jsstr_eqb_eq; exact Hr).
    congruence.
  - injection Hd as <- Hd. unfold has_slug in Hpre, Hp'. simpl in Hpre, Hp'.
    apply orb_false_iff in Hpre as [_ Hpre].
    apply orb_false_iff in Hp' as [_ Hp'].
    simpl. f_equal. apply IH; assumption.
Qed.

(** X2: restore undoes delete.  When the connection is up and the document
    that answers to the slug is active, [deleteSiteBySlug] followed by
    [restoreSiteBySlug] both answer [true] and leave the collection exactly
    as it was before the two. *)
Theorem restore_undoes_delete :
  forall (sl : jsstr) (r : UserSite) (env1 env2 : Env) (w : World),
    mongo_connected env1 = true ->
    mongo_connected env2 = true ->
    findOne sl (db w) = Some r ->
    status r = active ->
    let w1 := snd (deleteSiteBySlug sl env1 w) in
    fst (deleteSiteBySlug sl env1 w) = Normal true /\
    fst (restoreSiteBySlug sl env2 w1) = Normal true /\
    db (snd (restoreSiteBySlug sl env2 w1)) = db w.
Proof.
  intros sl r env1 env2 w Hc1 Hc2 Hfind Hact. cbv zeta.
  unfold deleteSiteBySlug, restoreSiteBySlug.
  rewrite !setStatusBySlug_run, Hc1, Hc2.
  pose proof (findOneAndUpdate_spec sl deleted (db w)) as Hspec.
  rewrite Hfind in Hspec. destruct Hspec as (pre & post & Hd & Hpre & Hupd).
  destruct (findOne_slug _ _ _ Hfind) as [Hsl _].
  rewrite Hupd; simpl.
  rewrite (findOneAndUpdate_found sl active pre post (with_status r deleted)
             Hpre Hsl); simpl.
  repeat split. rewrite Hd. f_equal. f_equal.
  rewrite <- Hact. destruct r; reflexivity.
Qed.

Lemma restore_undoes_delete_witness :
  db (snd (restoreSiteBySlug (U "shop-9z8y") env_ok
             (snd (deleteSiteBySlug (U "shop-9z8y") env_ok
                     (observe None three_sites))))) = three_sites.
Proof.
  exact (proj2 (proj2 (restore_undoes_delete (U "shop-9z8y") shop env_ok
                         env_ok (observe None three_sites)
                         eq_refl eq_refl eq_refl eq_refl))).
Defined.

(** X3: deleting twice is deleting once, and so is restoring twice: the
    second call finds the same document, answers as the first did, and
    leaves the collection as the first call left it. *)
Theorem setStatusBySlug_idempotent :
  forall (sl : jsstr) (st : SiteStatus) (env1 env2 : Env) (w : World),
    mongo_connected env1 = true ->
    mongo_connected env2 = true ->
    let w1 := snd (setStatusBySlug sl st env1 w) in
    fst (setStatusBySlug sl st env2 w1) = fst (setStatusBySlug sl st env1 w) /\
    db (snd (setStatusBySlug sl st env2 w1)) = db w1.
Proof.
  intros sl st env1 env2 w Hc1 Hc2. cbv zeta.
  rewrite !setStatusBySlug_run, Hc1, Hc2.
  pose proof (findOneAndUpdate_spec sl st (db w)) as Hspec.
  destruct (findOne sl (db w)) as [r|] eqn:Hfind.
  - destruct Hspec as (pre & post & Hd & Hpre & Hupd).
    destruct (findOne_slug _ _ _ Hfind) as [Hsl _].
    rewrite Hupd; simpl.
    rewrite (findOneAndUpdate_found sl st pre post (with_status r st)
               Hpre Hsl); simpl.
    split; reflexivity.
  - rewrite Hspec; simpl. rewrite Hspec; simpl. split; reflexivity.
Qed.

Lemma setStatusBySlug_idempotent_witness :
  db (snd (deleteSiteBySlug (U "blog-1a2b") env_admin
             (snd (deleteSiteBySlug (U "blog-1a2b") env_ok
                     (observe None three_sites))))) =
  [with_status blog deleted; older_site; shop].
Proof.
  unfold deleteSiteBySlug.
  rewrite (proj2 (setStatusBySlug_idempotent (U "blog-1a2b") deleted env_ok
                    env_admin (observe None three_sites) eq_refl eq_refl)).
  reflexivity.
Defined.

(** ** Listing and counting sites *)

Lemma insert_newest_first_In (r x : UserSite) (l : list UserSite) :
  In x (insert_newest_first r l) <-> x = r \/ In x l.
Proof.
  induction l as [|y l IH]; simpl.
  - intuition auto.
  - destruct (uploadedAt y <? uploadedAt r); simpl; [intuition auto|].
    rewrite IH. intuition auto.
Qed.

Lemma sort_newest_first_In (x : UserSite) (l : list UserSite) :
  In x (sort_newest_first l) <-> In x l.
Proof.
  induction l as [|y l IH]; simpl; [tauto|].
  rewrite insert_newest_first_In, IH. intuition auto.
Qed.

Lemma insert_newest_first_length (r : UserSite) (l : list UserSite) :
  List.length (insert_newest_first r l) = S (List.length l).
Proof.
  induction l as [|y l IH]; simpl; [reflexivity|].
  destruct (uploadedAt y <? uploadedAt r); simpl; [reflexivity|].
  rewrite IH. reflexivity.
Qed.

Lemma sort_newest_first_length (l : list UserSite) :
  List.length (sort_newest_first l) = List.length l.
Proof.
  induction l as [|y l IH]; simpl; [reflexivity|].
  rewrite insert_newest_first_length, IH. reflexivity.
Qed.

Lemma insert_newest_first_sorted (r : UserSite) (l : list UserSite) :
  newest_first l -> newest_first (insert_newest_first r l).
Proof.
  induction l as [|y l IH]; simpl; intros Hs.
  - split; [intros ? []|exact I].
  - destruct Hs as [Hy Hl].
    destruct (uploadedAt y <? uploadedAt r) eqn:E; simpl.
    + apply Z.ltb_lt in E. split; [|split; assumption].
      intros z [<-|Hz]; [lia|]. specialize (Hy z Hz). lia.
    + apply Z.ltb_ge in E. split; [|apply IH; exact Hl].
      intros z Hz. apply insert_newest_first_In in Hz as [->|Hz];
        [exact E | exact (Hy z Hz)].
Qed.

Lemma sort_newest_first_sorted (l : list UserSite) :
  newest_first (sort_newest_first l).
Proof.
  induction l as [|y l IH]; simpl; [exact I|].
  apply insert_newest_first_sorted. exact IH.
Qed.

(** X4: [getUserSites] never throws and changes nothing.  With the
    connection up it returns exactly the documents of that user that are
    active -- never a site of another user, never a deleted one, none left
    out, none twice over -- newest first; with the connection down it
    returns the empty list. *)
Theorem getUserSites_lists_own_active_sites :
  forall (uid : Z) (env : Env) (w : World),
  exists sites : list UserSite,
    getUserSites uid env w = (Normal sites, w) /\
    (mongo_connected env = false -> sites = []) /\
    (mongo_connected env = true ->
     (forall r, In r sites <->
                In r (db w) /\ userId r = uid /\ status r = active) /\
     List.length sites =
       List.length (filter (fun r => (userId r =? uid) && is_active r)
                           (db w)) /\
     newest_first sites).
Proof.
  intros uid env w. unfold getUserSites. js_unfold.
  destruct (mongo_connected env); simpl.
  - eexists. split; [reflexivity|]. split; [discriminate|]. intros _.
    split; [|split].
    + intros r. rewrite sort_newest_first_In, filter_In, andb_true_iff.
      rewrite Z.eqb_eq. unfold is_active.
      destruct (status r); intuition (auto; discriminate).
    + apply sort_newest_first_length.
    + apply sort_newest_first_sorted.
  - exists []. split; [reflexivity|]. split; [reflexivity|discriminate].
Qed.

Lemma getUserSites_witness :
  getUserSites 7 env_ok (observe None three_sites) =
    (Normal [shop; blog], observe None three_sites) /\
  getUserSites 7 env_mongo_down (observe None three_sites) =
    (Normal [], observe None three_sites).
Proof.
  destruct (getUserSites_lists_own_active_sites 7 env_ok
              (observe None three_sites)) as (l & Hl & _).
  destruct (getUserSites_lists_own_active_sites 7 env_mongo_down
              (observe None three_sites)) as (l' & Hl' & Hdown & _).
  split; [reflexivity|]. rewrite Hl', (Hdown eq_refl). reflexivity.
Defined.

Lemma getTotalSitesCount_run (env : Env) (w : World) :
  getTotalSitesCount env w =
    (Normal (if mongo_connected env
             then List.length (filter is_active (db w)) else 0%nat), w).
Proof.
  unfold getTotalSitesCount. js_unfold.
  destruct (mongo_connected env); reflexivity.
Qed.

Lemma NoDup_slug_elsewhere (pre post : list UserSite) (r x : UserSite) :
  NoDup (map slug (pre ++ r :: post)) ->
  In x (pre ++ post) -> x <> r.
Proof.
  intros Hnd Hx ->. rewrite map_app in Hnd. simpl in Hnd.
  apply NoDup_remove_2 in Hnd. apply Hnd.
  rewrite <- map_app. apply in_map. exact Hx.
Qed.

(** X5: a deleted site disappears from its owner's list and from the count.
    With unique slugs and the connection up, after [deleteSiteBySlug] of an
    active site the owner's list is the list as it was without that site,
    and [getTotalSitesCount] is one less. *)
Theorem delete_hides_site :
  forall (sl : jsstr) (r : UserSite) (env0 env : Env) (w : World),
    mongo_connected env0 = true ->
    mongo_connected env = true ->
    NoDup (map slug (db w)) ->
    findOne sl (db w) = Some r ->
    status r = active ->
    let w1 := snd (deleteSiteBySlug sl env0 w) in
    exists (before after : list UserSite) (n : nat),
      getUserSites (userId r) env w = (Normal before, w) /\
      getUserSites (userId r) env w1 = (Normal after, w1) /\
      In r before /\
      (forall x, In x after <-> In x before /\ x <> r) /\
      getTotalSitesCount env w = (Normal (S n), w) /\
      getTotalSitesCount env w1 = (Normal n, w1).
Proof.
  intros sl r env0 env w Hc0 Hc Hnd Hfind Hact. cbv zeta.
  unfold deleteSiteBySlug. rewrite setStatusBySlug_run, Hc0.
  pose proof (findOneAndUpdate_spec sl deleted (db w)) as Hspec.
  rewrite Hfind in Hspec. destruct Hspec as (pre & post & Hd & Hpre & Hupd).
  rewrite Hupd; simpl. rewrite !getTotalSitesCount_run, Hc; simpl.
  unfold getUserSites. js_unfold. rewrite Hc; simpl.
  rewrite Hd in *.
  assert (Hr : (userId r =? userId r) && is_active r = true)
    by (rewrite Z.eqb_refl; unfold is_active; rewrite Hact; reflexivity).
  assert (Hra : is_active r = true)
    by (unfold is_active; rewrite Hact; reflexivity).
  eexists _, _, (List.length (filter is_active (pre ++ post))).
  split; [reflexivity|]. split; [reflexivity|]. split; [|split; [|split]].
  - apply sort_newest_first_In, filter_In. split; [|exact Hr].
    apply in_or_app. right. left. reflexivity.
  - intros x. rewrite !sort_newest_first_In, !filter_In, !in_app_iff. simpl.
    split.
    + intros [[Hx|[Hx|Hx]] Hf].
      * split; [auto|]. apply (NoDup_slug_elsewhere pre post r x Hnd).
        apply in_or_app; auto.
      * subst x. rewrite andb_false_r in Hf. discriminate.
      * split; [auto|]. apply (NoDup_slug_elsewhere pre post r x Hnd).
        apply in_or_app; auto.
    + intros [[[Hx|[Hx|Hx]] Hf] Hne]; try (split; auto; fail).
      congruence.
  - rewrite !filter_app, !length_app. simpl. rewrite Hra. simpl.
    rewrite Nat.add_succ_r. reflexivity.
  - rewrite !filter_app, !length_app. simpl. reflexivity.
Qed.

Lemma delete_hides_site_witness :
  exists after : list UserSite,
    getUserSites 7 env_ok
      (snd (deleteSiteBySlug (U "shop-9z8y") env_ok
              (observe None three_sites))) =
    (Normal after,
     snd (deleteSiteBySlug (U "shop-9z8y") env_ok
            (observe None three_sites))) /\
    ~ In shop after.
Proof.
  assert (Hnd : NoDup (map slug three_sites)).
  { simpl. repeat constructor; simpl; intuition discriminate. }
  destruct (delete_hides_site (U "shop-9z8y") shop env_ok env_ok
              (observe None three_sites) eq_refl eq_refl Hnd eq_refl eq_refl)
    as (before & after & n & _ & Hafter & _ & Hiff & _).
  exists after. split; [exact Hafter|].
  intros Hin. apply Hiff in Hin as [_ Hne]. apply Hne. reflexivity.
Defined.

(** ** Admin flows *)

Lemma isAdmin_In (env : Env) :
  existsb (Z.eqb (from_id env)) (ADMIN_IDS env) = true <->
  In (from_id env) (ADMIN_IDS env).
Proof.
  rewrite existsb_exists. split.
  - intros (x & Hx & E). apply Z.eqb_eq in E. subst x. exact Hx.
  - intros H. exists (from_id env). split; [exact H | apply Z.eqb_refl].
Qed.

Lemma not_admin (env : Env) :
  ~ In (from_id env) (ADMIN_IDS env) ->
  existsb (Z.eqb (from_id env)) (ADMIN_IDS env) = false.
Proof.
  intros H. destruct (existsb _ _) eqn:E; [|reflexivity].
  apply isAdmin_In in E. contradiction.
Qed.

(** X6: a user who is not in [ADMIN_IDS] can neither open nor use an admin
    flow.  Each of the five admin buttons only answers with the
    access-denied alert: the session -- an upload in progress included --
    and the collection stay as they are.  And in a session that waits for a
    slug, a text from such a user does nothing at all: nothing is deleted or
    restored, no call is made, nothing is replied, and the session is kept. *)
Theorem non_admin_is_denied :
  forall (env : Env) (w : World),
    ~ In (from_id env) (ADMIN_IDS env) ->
    (forall a : ActionName,
       admin_only a = true ->
       process (Action a) env w =
         {| session := session w; db := db w;
            log := log w ++ Tg (AnswerCbQuery MsgAccessDenied)
                            :: caught env (AnswerCbQuery MsgAccessDenied) |})
    /\
    (forall text : jsstr,
       state_is (session w) admin_delete = true \/
       state_is (session w) admin_restore = true ->
       process (TextMessage text) env w = w).
Proof.
  intros env [s d l] Hna. apply not_admin in Hna. split.
  - intros a Ha. destruct a; try discriminate Ha;
      js_unfold; rewrite Hna; simpl;
      destruct (telegram_ok env (AnswerCbQuery MsgAccessDenied)); simpl;
      rewrite <- ?app_assoc; reflexivity.
  - intros text Hst. simpl in Hst. js_unfold.
    destruct (state_is s admin_delete) eqn:E1; simpl.
    + rewrite Hna. reflexivity.
    + destruct Hst as [Hst|Hst]; [congruence|].
      rewrite Hst. simpl. rewrite Hna. reflexivity.
Qed.

Lemma non_admin_is_denied_witness :
  process (Action admin_delete_site) env_ok
    (observe (Some (named_session multiple [])) three_sites) =
  {| session := Some (named_session multiple []); db := three_sites;
     log := [Tg (AnswerCbQuery MsgAccessDenied)] |} /\
  process (TextMessage (U "blog-1a2b")) env_ok
    (observe (Some admin_delete_session) three_sites) =
  observe (Some admin_delete_session) three_sites.
Proof.
  assert (Hna : ~ In (from_id env_ok) (ADMIN_IDS env_ok))
    by (simpl; intuition discriminate).
  split.
  - exact (proj1 (non_admin_is_denied env_ok
                    (observe (Some (named_session multiple [])) three_sites)
                    Hna) admin_delete_site eq_refl).
  - exact (proj2 (non_admin_is_denied env_ok
                    (observe (Some admin_delete_session) three_sites) Hna)
                 (U "blog-1a2b") (or_introl eq_refl)).
Defined.

Lemma skipn_length_app {A} (l k : list A) :
  skipn (List.length l) (l ++ k) = k.
Proof. induction l as [|x l IH]; simpl; [reflexivity | exact IH]. Qed.

(** X7: the admin delete and restore flows, from the button to the answer.
    An admin presses the button -- whatever session there was is replaced --
    and sends a text.  The trimmed text is the slug.  Once the progress
    message is delivered, the status is set in the collection and the admin
    API is called, in that order, and the answer is the success message when
    either of the two succeeded and the not-found message otherwise; when
    the progress message is rejected, neither is attempted and the answer is
    the failure message.  In every case the session ends cleared and nothing
    escapes to [bot.catch]. *)
Theorem admin_flow :
  forall (op : AdminOp) (text : jsstr) (env1 env2 : Env) (w : World),
    In (from_id env1) (ADMIN_IDS env1) ->
    In (from_id env2) (ADMIN_IDS env2) ->
    let sl := trim text in
    let w' := run [(Action (button_of op), env1); (TextMessage text, env2)] w in
    let found := mongo_connected env2 && has_slug sl (db w) in
    session w' = None /\
    ~ In (Tg (Reply MsgGenericError)) (skipn (List.length (log w)) (log w')) /\
    if telegram_ok env2 (Reply (progress_of op)) then
      db w' = db (snd (setStatusBySlug sl (status_of op) env2 w)) /\
      log w' = log w ++
               [Tg (EditMessageText (prompt_of op));
                Tg (Reply (progress_of op));
                MongoSetStatus sl (status_of op);
                PostAdmin op sl;
                Tg (Reply (if found || admin_api_ok env2 op sl
                           then done_of op sl else MsgSiteNotFound sl))]
    else
      db w' = db w /\
      log w' = log w ++
               [Tg (EditMessageText (prompt_of op));
                Tg (Reply (progress_of op));
                Tg (Reply (failed_of op))].
Proof.
  intros op text env1 env2 [s d l] Ha1 Ha2. cbv zeta.
  apply isAdmin_In in Ha1, Ha2.
  rewrite setStatusBySlug_run, findOne_has_slug. simpl.
  pose proof (findOneAndUpdate_spec (trim text) (status_of op) d) as Hspec.
  destruct op; simpl in Hspec |- *; js_unfold; rewrite Ha1; simpl;
    rewrite Ha2; simpl;
    (destruct (telegram_ok env2 (Reply _)); simpl;
     [ destruct (mongo_connected env2); simpl;
       [ destruct (findOne (trim text) d) as [r|];
         [ destruct Hspec as (pre & post & _ & _ & ->) | rewrite Hspec ]
       | ]
     | ];
     simpl; repeat (rewrite <- app_assoc; simpl);
     rewrite ?skipn_length_app; simpl;
     repeat split; try reflexivity;
     try destruct (admin_api_ok env2 _ (trim text));
     simpl; repeat (rewrite <- app_assoc; simpl);
     rewrite ?skipn_length_app; simpl;
     try reflexivity; try (intuition discriminate)).
Qed.

Lemma admin_flow_witness :
  session (run [(Action admin_delete_site, env_admin);
                (TextMessage (U " blog-1a2b "), env_admin)]
               (observe (Some (named_session multiple [])) three_sites)) =
    None /\
  db (run [(Action admin_delete_site, env_admin);
           (TextMessage (U " blog-1a2b "), env_admin)]
          (observe (Some (named_session multiple [])) three_sites)) =
    [with_status blog deleted; older_site; shop].
Proof.
  assert (Ha : In (from_id env_admin) (ADMIN_IDS env_admin))
    by (simpl; auto).
  destruct (admin_flow OpDelete (U " blog-1a2b ") env_admin env_admin
              (observe (Some (named_session multiple [])) three_sites)
              Ha Ha) as (Hs & _ & Hd).
  split; [exact Hs|].
  change (telegram_ok env_admin (Reply (progress_of OpDelete))) with true
    in Hd.
  destruct Hd as [Hd _]. exact Hd.
Defined.

(** ** Leaving a session *)

Lemma external_calls_app (l k : list Effect) :
  external_calls (l ++ k) = external_calls l ++ external_calls k.
Proof.
  induction l as [|e l IH]; simpl; [reflexivity|].
  destruct e; simpl; rewrite ?IH; reflexivity.
Qed.

(** From no session, an update that does not start one leaves no session,
    does not touch the collection and makes no call besides messages. *)
Lemma idle_step (u : Update) (env : Env) (w : World) :
  starts_session u = false ->
  session w = None ->
  session (process u env w) = None /\
  db (process u env w) = db w /\
  external_calls (log (process u env w)) = external_calls (log w).
Proof.
  intros Hu Hs. destruct w as [s d l]; simpl in Hs; subst s.
  destruct u as [|a|text|doc]; [|destruct a| |]; try discriminate Hu;
    js_unfold; repeat (case_branch; simpl);
    repeat rewrite external_calls_app; simpl; rewrite ?app_nil_r; auto.
Qed.

(** X8: [cancel] and [back_menu] end whatever was going on.  From any
    session -- an upload with files staged, an admin flow -- the session is
    cleared without touching the collection, and from then on, until a new
    session is started, whatever texts, documents and button presses
    follow, no file is downloaded from Telegram, no deploy is requested,
    nothing is written to MongoDB and no site is deleted or restored through
    the admin API. *)
Theorem cancel_ends_everything :
  forall (a : ActionName) (env : Env) (us : list (Update * Env)) (w : World),
    a = cancel \/ a = back_menu ->
    Forall (fun '(u, _) => starts_session u = false) us ->
    let w' := run ((Action a, env) :: us) w in
    session (process (Action a) env w) = None /\
    session w' = None /\
    db w' = db w /\
    external_calls (log w') = external_calls (log w).
Proof.
  intros a env us w Ha Hus. cbv zeta. simpl.
  assert (H0 : session (process (Action a) env w) = None /\
               db (process (Action a) env w) = db w /\
               external_calls (log (process (Action a) env w))
               = external_calls (log w)).
  { destruct w as [s d l].
    destruct Ha as [-> | ->]; js_unfold;
      repeat rewrite external_calls_app; simpl; rewrite ?app_nil_r; auto. }
  destruct H0 as (Hs & Hd & Hl). split; [exact Hs|].
  rewrite <- Hd, <- Hl. clear Hd Hl.
  generalize dependent (process (Action a) env w). clear w Ha.
  induction us as [|[u e] us IH]; intros w Hs; simpl; [auto|].
  inversion Hus as [|x xs Hu Hrest]; subst.
  destruct (idle_step u e w Hu Hs) as (Hs1 & Hd1 & Hl1).
  destruct (IH Hrest (process u e w) Hs1) as (Hs2 & Hd2 & Hl2).
  rewrite Hs2, Hd2, Hl2. auto.
Qed.

Lemma cancel_ends_everything_witness :
  external_calls
    (log (run [(Action cancel, env_ok);
               (DocumentMessage index_html, env_ok);
               (TextMessage (U "blog-1a2b"), env_ok);
               (Action finish_upload, env_ok)]
              (observe (Some (named_session multiple
                                [staged site_zip (bytes_of "Man")]))
                       three_sites))) = [] /\
  db (run [(Action cancel, env_ok);
           (DocumentMessage index_html, env_ok);
           (TextMessage (U "blog-1a2b"), env_ok);
           (Action finish_upload, env_ok)]
          (observe (Some (named_session multiple
                            [staged site_zip (bytes_of "Man")]))
                   three_sites)) = three_sites.
Proof.
  destruct (cancel_ends_everything cancel env_ok
              [(DocumentMessage index_html, env_ok);
               (TextMessage (U "blog-1a2b"), env_ok);
               (Action finish_upload, env_ok)]
              (observe (Some (named_session multiple
                                [staged site_zip (bytes_of "Man")]))
                       three_sites)
              (or_introl eq_refl)) as (_ & _ & Hd & Hl).
  - repeat (apply Forall_cons; [reflexivity|]). apply Forall_nil.
  - split; [exact Hl | exact Hd].
Defined.

(** ** Trimming *)

Lemma trimStart_suffix (s : jsstr) :
  exists pre, s = pre ++ trimStart s /\ forallb is_whitespace pre = true.
Proof.
  induction s as [|c s IH]; simpl.
  - exists []. auto.
  - destruct (is_whitespace c) eqn:E.
    + destruct IH as (pre & Hs & Hpre). exists (c :: pre). simpl.
      rewrite E, Hpre. split; [f_equal; exact Hs | reflexivity].
    + exists []. auto.
Qed.

Lemma trimStart_head (s : jsstr) :
  match trimStart s with
  | [] => True
  | c :: _ => is_whitespace c = false
  end.
Proof.
  induction s as [|c s IH]; simpl; [exact I|].
  destruct (is_whitespace c) eqn:E; [exact IH | exact E].
Qed.

Lemma trimStart_clean (s : jsstr) :
  match s with
  | [] => True
  | c :: _ => is_whitespace c = false
  end ->
  trimStart s = s.
Proof. destruct s as [|c s]; simpl; [reflexivity|]. intros ->. reflexivity. Qed.

Lemma trimStart_idempotent (s : jsstr) : trimStart (trimStart s) = trimStart s.
Proof. apply trimStart_clean, trimStart_head. Qed.

Lemma trimEnd_prefix (s : jsstr) :
  exists suf, s = trimEnd s ++ suf /\ forallb is_whitespace suf = true.
Proof.
  destruct (trimStart_suffix (rev s)) as (pre & Hs & Hpre).
  exists (rev pre). split.
  - unfold trimEnd. rewrite <- rev_app_distr, <- Hs, rev_involutive.
    reflexivity.
  - rewrite forallb_forall in *. intros x Hx. apply Hpre, in_rev, Hx.
Qed.

Lemma trimEnd_idempotent (s : jsstr) : trimEnd (trimEnd s) = trimEnd s.
Proof.
  unfold trimEnd. rewrite rev_involutive, trimStart_idempotent. reflexivity.
Qed.

Lemma trimStart_trim (s : jsstr) : trimStart (trim s) = trim s.
Proof.
  unfold trim. apply trimStart_clean.
  pose proof (trimStart_head s) as Hh.
  destruct (trimEnd_prefix (trimStart s)) as (suf & Hs & _).
  destruct (trimEnd (trimStart s)) as [|c t]; [exact I|].
  rewrite Hs in Hh. exact Hh.
Qed.

(** Trimming twice is trimming once. *)
Lemma trim_idempotent (s : jsstr) : trim (trim s) = trim s.
Proof.
  unfold trim at 1. rewrite trimStart_trim. apply trimEnd_idempotent.
Qed.

(** A trimmed string neither starts nor ends with white space. *)
Lemma trim_ends (s : jsstr) :
  match trim s with
  | [] => True
  | c :: _ => is_whitespace c = false
  end /\
  match rev (trim s) with
  | [] => True
  | c :: _ => is_whitespace c = false
  end.
Proof.
  split.
  - pose proof (trimStart_head (trim s)) as H.
    rewrite trimStart_trim in H. exact H.
  - unfold trim, trimEnd. rewrite rev_involutive. apply trimStart_head.
Qed.

(** ** Well-formed sessions *)

Ltac solve_wf :=
  simpl; repeat split; try discriminate; try congruence; eauto;
  try (eexists; split; [reflexivity|]; split;
       [apply trim_idempotent | assumption]).

Ltac solve_deploys :=
  repeat rewrite deploys_app; simpl; rewrite ?app_nil_r;
  first
    [ exists []; rewrite app_nil_r; split; [reflexivity | constructor]
    | eexists; split; [reflexivity|];
      constructor; [|constructor];
      split; simpl;
      [ eexists; split; [reflexivity | assumption]
      | first [ intros E; apply app_eq_nil in E; destruct E; discriminate
              | intros E; subst; discriminate ] ] ].

Lemma wf_step (u : Update) (env : Env) (w : World) :
  wf_session (session w) ->
  wf_session (session (process u env w)) /\
  exists new,
    deploys (log (process u env w)) = deploys (log w) ++ new /\
    Forall valid_deploy new.
Proof.
  intros Hwf. destruct w as [[[st ut sn fs]|] d l]; simpl in Hwf.
  - destruct st as [[]|]; [| | | |contradiction].
    all: destruct Hwf as (Hut & Hsn & Hfs).
    all: try destruct Hsn as (n & -> & Hn).
    all: try destruct Hfs as (fs0 & ->).
    all: subst.
    all: try match goal with
             | H : ?x <> None |- _ => destruct x as [[]|]; [ | |congruence]
             end.
    all: destruct u as [|a|text|doc]; [|destruct a| |].
    all: js_unfold; repeat (case_branch; simpl).
    all: split; [solve_wf | solve_deploys].
  - destruct u as [|a|text|doc]; [|destruct a| |];
      js_unfold; repeat (case_branch; simpl);
      (split; [solve_wf | solve_deploys]).
Qed.

(** X9: the sessions the bot creates are well formed, and so are its deploy
    requests.  Starting without a session (or from any well-formed one),
    whatever updates arrive and whatever the outside world answers, the
    session is always absent or of the shape its state promises; and every
    deploy request made on the way carries a site name -- trimmed, not
    starting with [/] -- and at least one file. *)
Theorem sessions_stay_well_formed :
  forall (us : list (Update * Env)) (w : World),
    wf_session (session w) ->
    wf_session (session (run us w)) /\
    exists new,
      deploys (log (run us w)) = deploys (log w) ++ new /\
      Forall valid_deploy new.
Proof.
  induction us as [|[u env] us IH]; intros w Hwf; simpl.
  - split; [exact Hwf|]. exists []. rewrite app_nil_r. auto.
  - destruct (wf_step u env w Hwf) as (Hwf1 & new1 & Hl1 & Hv1).
    destruct (IH (process u env w) Hwf1) as (Hwf2 & new2 & Hl2 & Hv2).
    split; [exact Hwf2|]. exists (new1 ++ new2).
    rewrite Hl2, Hl1, app_assoc. split; [reflexivity|].
    apply Forall_app. auto.
Qed.

Lemma sessions_stay_well_formed_witness :
  wf_session
    (session (run [(Action upload_zip, env_ok);
                   (TextMessage (U "  My Portfolio "), env_ok);
                   (DocumentMessage site_zip, env_timeout)]
                  (observe None []))) /\
  Forall valid_deploy
    (deploys (log (run [(Action upload_zip, env_ok);
                        (TextMessage (U "  My Portfolio "), env_ok);
                        (DocumentMessage site_zip, env_timeout)]
                       (observe None [])))).
Proof.
  destruct (sessions_stay_well_formed
              [(Action upload_zip, env_ok);
               (TextMessage (U "  My Portfolio "), env_ok);
               (DocumentMessage site_zip, env_timeout)]
              (observe None []) I) as (Hwf & new & Hl & Hv).
  split; [exact Hwf|]. rewrite Hl. exact Hv.
Defined.

(** ** What reaches [bot.catch] *)



(** ** When a file is staged *)

(** X11: a document within the size limit -- or without a reported size --
    in a session that collects several files.  The file is staged exactly
    when the progress message is delivered and the download succeeds.  If
    deleting the progress message then fails, the user is told that the
    download failed although the file stays staged.  In every case the
    collection is untouched, no deploy is requested and the files staged
    before stay as they are, in order. *)
Theorem document_outcome :
  forall (d : Document) (env : Env) (w : World) (sess : Session)
         (fs : list StagedFile),
    session w = Some sess ->
    state sess = Some waiting_for_files ->
    uploadType sess <> Some zip ->
    files sess = Some fs ->
    too_large (file_size d) = false ->
    let w' := process (DocumentMessage d) env w in
    let progress := Tg (Reply (MsgDownloading (file_name d))) in
    db w' = db w /\
    deploys (log w') = deploys (log w) /\
    match telegram_ok env (Reply (MsgDownloading (file_name d))),
          telegram_file env (file_id d) with
    | true, Some content =>
        session w' = Some (with_files sess (fs ++ [staged d content])) /\
        log w' = log w ++
                 [progress; GetFile (file_id d); Tg DeleteMessage;
                  Tg (Reply (if telegram_ok env DeleteMessage
                             then MsgFileUploaded (file_name d) (file_size d)
                                                  (S (List.length fs))
                             else MsgDownloadFailed))]
    | true, None =>
        session w' = session w /\
        log w' = log w ++
                 [progress; GetFile (file_id d); Tg (Reply MsgDownloadFailed)]
    | false, _ =>
        session w' = session w /\
        log w' = log w ++ [progress; Tg (Reply MsgDownloadFailed)]
    end.
Proof.
  intros d env [s d0 l] sess fs Hs Hst Hzip Hfs Hsz. simpl in Hs; subst s.
  assert (Hz : uploadType_is_zip sess = false).
  { unfold uploadType_is_zip. destruct (uploadType sess) as [[]|];
      [congruence | reflexivity | reflexivity]. }
  cbv zeta. js_unfold. rewrite Hst; simpl. rewrite Hsz; simpl.
  destruct (telegram_ok env (Reply (MsgDownloading (file_name d)))); simpl.
  - destruct (telegram_file env (file_id d)) as [content|]; simpl.
    + rewrite Hfs; simpl.
      destruct (telegram_ok env DeleteMessage); simpl.
      * unfold uploadType_is_zip in *; simpl. rewrite Hz; simpl.
        repeat (rewrite <- app_assoc; simpl).
        rewrite deploys_app; simpl. rewrite app_nil_r, length_app; simpl.
        rewrite Nat.add_1_r. auto.
      * repeat (rewrite <- app_assoc; simpl).
        rewrite deploys_app; simpl. rewrite app_nil_r. auto.
    + repeat (rewrite <- app_assoc; simpl).
      rewrite deploys_app; simpl. rewrite app_nil_r. auto.
  - repeat (rewrite <- app_assoc; simpl).
    rewrite deploys_app; simpl. rewrite app_nil_r. auto.
Qed.

Lemma document_outcome_witness :
  session (process (DocumentMessage unsized) env_delete_fails
             (observe (Some (named_session multiple [])) [])) =
    Some (named_session multiple [staged unsized (bytes_of "Man")]) /\
  log (process (DocumentMessage unsized) env_delete_fails
         (observe (Some (named_session multiple [])) [])) =
    [Tg (Reply (MsgDownloading (Some (U "style.css"))));
     GetFile (U "BQACAgQAAx3"); Tg DeleteMessage;
     Tg (Reply MsgDownloadFailed)].
Proof.
  assert (Hz : uploadType (named_session multiple []) <> Some zip)
    by discriminate.
  destruct (document_outcome unsized env_delete_fails
              (observe (Some (named_session multiple [])) [])
              (named_session multiple []) [] eq_refl eq_refl Hz eq_refl
              eq_refl) as (_ & _ & Hm).
  exact Hm.
Defined.

(** ** From the first button to the record *)

Lemma run_app (us vs : list (Update * Env)) (w : World) :
  run (us ++ vs) w = run vs (run us w).
Proof.
  revert w. induction us as [|[u env] us IH]; intros w; simpl;
    [reflexivity | apply IH].
Qed.

(** [finish_upload] once both notices are delivered and the hosting API has
    answered: the session is cleared, and the record is appended exactly
    when the answer is [ok] and the collection accepts the record. *)
Lemma finish_upload_answered (sess : Session) (fs : list StagedFile)
      (env : Env) (w : World) (r : DeployResult) :
  session w = Some sess ->
  files sess = Some fs ->
  fs <> [] ->
  telegram_ok env (AnswerCbQuery MsgDeployingToast) = true ->
  telegram_ok env (EditMessageText MsgDeploying) = true ->
  hosting env (siteName sess) fs = DeployReturns r ->
  let sd := site_data (siteName sess) r fs in
  let w' := process (Action finish_upload) env w in
  session w' = None /\
  db w' = (if ok r && accepts env (db w) sd
           then db w ++ [new_UserSite (from_id env) sd (now env)]
           else db w).
Proof.
  intros Hs Hfs Hne Ha He Hh. destruct w as [s d l]; simpl in Hs; subst s.
  cbv zeta. js_unfold. rewrite Hfs. destruct fs as [|f fs]; [congruence|].
  simpl. rewrite Ha; simpl. rewrite He; simpl. rewrite Hh; simpl.
  unfold accepts, site_data; simpl.
  destruct (ok r); simpl; [|auto].
  destruct (required (siteName sess)); simpl; [|auto].
  destruct (r_slug r) as [|c1 s1]; simpl; [auto|].
  destruct (r_url r) as [|c2 s2]; simpl; [auto|].
  destruct (mongo_connected env); simpl; [|auto].
  destruct (has_slug (c1 :: s1) d); simpl; auto.
Qed.

(** The archive path once the file is staged, the deploying message is
    delivered and the hosting API has answered. *)
Lemma archive_answered (d : Document) (env : Env) (content : list byte)
      (sess : Session) (fs : list StagedFile) (r : DeployResult)
      (w : World) :
  session w = Some sess ->
  state sess = Some waiting_for_files ->
  uploadType sess = Some zip ->
  files sess = Some fs ->
  submission_ok d env content ->
  telegram_ok env (Reply MsgDeploying) = true ->
  hosting env (siteName sess) (fs ++ [staged d content]) = DeployReturns r ->
  let sd := site_data (siteName sess) r (fs ++ [staged d content]) in
  let w' := process (DocumentMessage d) env w in
  (ok r = false \/ accepts env (db w) sd = true -> session w' = None) /\
  deploys (log w') =
    deploys (log w) ++ [(siteName sess, fs ++ [staged d content])] /\
  db w' = (if ok r && accepts env (db w) sd
           then db w ++ [new_UserSite (from_id env) sd (now env)]
           else db w).
Proof.
  intros Hs Hst Hzip Hfs (Hsz & Hr & Hdl & Hdel) Hdep Hh.
  destruct w as [s d0 l]; simpl in Hs; subst s.
  cbv zeta. js_unfold. rewrite Hst; simpl. rewrite Hsz, Hr; simpl.
  rewrite Hdl; simpl. rewrite Hfs; simpl. rewrite Hdel; simpl.
  unfold uploadType_is_zip; simpl. rewrite Hzip, Hdep; simpl.
  unfold staged in Hh. rewrite Hh; simpl.
  unfold accepts, site_data, staged; simpl.
  destruct (ok r); simpl.
  - destruct (required (siteName sess)); simpl.
    + destruct (r_slug r) as [|c1 s1]; simpl.
      * repeat (rewrite deploys_app; simpl). rewrite ?app_nil_r.
        repeat split; auto. intros [H|H]; discriminate.
      * destruct (r_url r) as [|c2 s2]; simpl.
        -- repeat (rewrite deploys_app; simpl). rewrite ?app_nil_r.
           repeat split; auto. intros [H|H]; discriminate.
        -- destruct (mongo_connected env); simpl.
           ++ destruct (has_slug (c1 :: s1) d0); simpl;
                repeat (rewrite deploys_app; simpl); rewrite ?app_nil_r;
                repeat split; auto. intros [H|H]; discriminate.
           ++ repeat (rewrite deploys_app; simpl). rewrite ?app_nil_r.
              repeat split; auto. intros [H|H]; discriminate.
    + repeat (rewrite deploys_app; simpl). rewrite ?app_nil_r.
      repeat split; auto. intros [H|H]; discriminate.
  - repeat (rewrite deploys_app; simpl). rewrite ?app_nil_r.
    repeat split; auto.
Qed.

Lemma staged_all_length (subs : list (Document * Env * list byte)) :
  List.length (staged_all subs) = List.length subs.
Proof. apply length_map. Qed.

(** X12: a whole upload of several files.  Whatever went on before -- a
    half-finished upload with files staged included -- pressing
    [upload_files], entering a name that is no command, sending documents
    that are staged without incident and pressing [finish_upload] requests
    exactly one deploy once the two notices are delivered, under the trimmed
    name and with exactly the documents sent since, in order.  When the
    hosting API answers, the session ends cleared, and the record of the
    site -- the sender of the last update as owner, the trimmed name, the
    slug and URL of the answer, the number of documents -- is appended to
    the collection exactly when the answer is [ok] and the collection accepts
    the record; otherwise the collection is as it was. *)
Theorem upload_files_end_to_end :
  forall (text : jsstr) (subs : list (Document * Env * list byte))
         (r : DeployResult) (e0 e1 eF : Env) (w : World),
    startsWith (trim text) (U "/") = false ->
    subs <> [] ->
    Forall (fun '(d, env, content) => submission_ok d env content) subs ->
    telegram_ok eF (AnswerCbQuery MsgDeployingToast) = true ->
    telegram_ok eF (EditMessageText MsgDeploying) = true ->
    hosting eF (Some (trim text)) (staged_all subs) = DeployReturns r ->
    let w' := run ((Action upload_files, e0) :: (TextMessage text, e1)
                   :: submissions subs ++ [(Action finish_upload, eF)]) w in
    session w' = None /\
    deploys (log w') =
      deploys (log w) ++ [(Some (trim text), staged_all subs)] /\
    db w' =
      (if ok r && accepts eF (db w)
                    (site_data (Some (trim text)) r (staged_all subs))
       then db w ++ [{| userId := from_id eF; name := trim text;
                        slug := r_slug r; url := r_url r;
                        filesCount := List.length subs;
                        uploadedAt := now eF; status := active |}]
       else db w).
Proof.
  intros text subs r e0 e1 eF w Hname Hne Hall Ha He Hh. cbv zeta.
  change (run ((Action upload_files, e0) :: (TextMessage text, e1)
               :: submissions subs ++ [(Action finish_upload, eF)]) w)
    with (run (submissions subs ++ [(Action finish_upload, eF)])
              (process (TextMessage text) e1
                 (process (Action upload_files) e0 w))).
  set (w0 := process (Action upload_files) e0 w).
  assert (Hw0 : session w0 = Some (new_session multiple) /\ db w0 = db w /\
                deploys (log w0) = deploys (log w)).
  { unfold w0. destruct w as [s d l]. js_unfold.
    rewrite deploys_app; simpl. rewrite app_nil_r. auto. }
  destruct Hw0 as (Hs0 & Hd0 & Hl0).
  rewrite (on_text_waiting_for_name text e1 w0 (new_session multiple)
             Hs0 eq_refl), Hname.
  set (sess := {| state := Some waiting_for_files;
                  uploadType := uploadType (new_session multiple);
                  siteName := Some (trim text);
                  files := files (new_session multiple) |}).
  set (w1 := {| session := Some sess |}).
  rewrite run_app.
  destruct (run_submissions subs sess [] w1 eq_refl eq_refl eq_refl eq_refl
              Hall) as (Hs2 & Hd2 & Hl2).
  simpl app in Hs2.
  assert (Hne' : staged_all subs <> []).
  { intros E. apply (f_equal (@List.length _)) in E.
    rewrite staged_all_length in E. destruct subs; [congruence|discriminate]. }
  change (run [(Action finish_upload, eF)] (run (submissions subs) w1))
    with (process (Action finish_upload) eF (run (submissions subs) w1)).
  destruct (finish_upload_answered (with_files sess (staged_all subs))
              (staged_all subs) eF (run (submissions subs) w1) r
              Hs2 eq_refl Hne' Ha He Hh) as (Hs3 & Hd3).
  destruct (finish_upload_deploys (with_files sess (staged_all subs))
              (staged_all subs) eF (run (submissions subs) w1)
              Hs2 eq_refl Hne') as (_ & Hl3).
  split; [exact Hs3|]. split.
  - rewrite (Hl3 Ha He), Hl2. unfold w1; simpl.
    repeat (rewrite deploys_app; simpl). rewrite ?app_nil_r.
    rewrite <- ?Hl0. reflexivity.
  - rewrite Hd3, Hd2. unfold w1; simpl. rewrite <- ?Hd0.
    unfold new_UserSite, site_data; simpl. rewrite staged_all_length.
    reflexivity.
Qed.

Lemma upload_files_end_to_end_witness :
  db (run ((Action upload_files, env_ok)
           :: (TextMessage (U " My Portfolio "), env_ok)
           :: submissions [(index_html, env_ok, bytes_of "Man");
                           (unsized, env_ok, bytes_of "Man")]
           ++ [(Action finish_upload, env_ok)])
          (observe (Some (named_session zip
                            [staged site_zip (bytes_of "Man")]))
                   [blog])) =
  [blog;
   {| userId := 7; name := U "My Portfolio";
      slug := U "my-portfolio-ab12";
      url := U "https://as-static-hosting.onrender.com/my-portfolio-ab12";
      filesCount := 2; uploadedAt := 1700000000; status := active |}].
Proof.
  refine (proj2 (proj2
    (upload_files_end_to_end (U " My Portfolio ")
       [(index_html, env_ok, bytes_of "Man");
        (unsized, env_ok, bytes_of "Man")]
       deployed env_ok env_ok env_ok
       (observe (Some (named_session zip [staged site_zip (bytes_of "Man")]))
                [blog])
       eq_refl _ _ eq_refl eq_refl eq_refl))).
  - discriminate.
  - repeat (apply Forall_cons;
            [unfold submission_ok; repeat split; reflexivity|]).
    apply Forall_nil.
Defined.

(** X13: a whole upload of one archive.  Whatever went on before, pressing
    [upload_zip], entering a name that is no command and sending one
    document that is staged without incident requests exactly one deploy
    once the deploying message is delivered, under the trimmed name and with
    that one file.  When the hosting API answers, the record -- with a file
    count of one -- is appended exactly when the answer is [ok] and the
    collection accepts it; and the session ends cleared when the answer is
    not [ok] or the record is accepted. *)
Theorem upload_zip_end_to_end :
  forall (text : jsstr) (d : Document) (content : list byte)
         (r : DeployResult) (e0 e1 e2 : Env) (w : World),
    startsWith (trim text) (U "/") = false ->
    submission_ok d e2 content ->
    telegram_ok e2 (Reply MsgDeploying) = true ->
    hosting e2 (Some (trim text)) [staged d content] = DeployReturns r ->
    let w' := run [(Action upload_zip, e0); (TextMessage text, e1);
                   (DocumentMessage d, e2)] w in
    let taken := accepts e2 (db w)
                   (site_data (Some (trim text)) r [staged d content]) in
    (ok r = false \/ taken = true -> session w' = None) /\
    deploys (log w') =
      deploys (log w) ++ [(Some (trim text), [staged d content])] /\
    db w' =
      (if ok r && taken
       then db w ++ [{| userId := from_id e2; name := trim text;
                        slug := r_slug r; url := r_url r;
                        filesCount := 1;
                        uploadedAt := now e2; status := active |}]
       else db w).
Proof.
  intros text d content r e0 e1 e2 w Hname Hsub Hdep Hh. cbv zeta.
  change (run [(Action upload_zip, e0); (TextMessage text, e1);
               (DocumentMessage d, e2)] w)
    with (process (DocumentMessage d) e2
            (process (TextMessage text) e1
               (process (Action upload_zip) e0 w))).
  set (w0 := process (Action upload_zip) e0 w).
  assert (Hw0 : session w0 = Some (new_session zip) /\ db w0 = db w /\
                deploys (log w0) = deploys (log w)).
  { unfold w0. destruct w as [s d0 l]. js_unfold.
    rewrite deploys_app; simpl. rewrite app_nil_r. auto. }
  destruct Hw0 as (Hs0 & Hd0 & Hl0).
  rewrite (on_text_waiting_for_name text e1 w0 (new_session zip)
             Hs0 eq_refl), Hname.
  set (sess := {| state := Some waiting_for_files;
                  uploadType := uploadType (new_session zip);
                  siteName := Some (trim text);
                  files := files (new_session zip) |}).
  set (w1 := {| session := Some sess |}).
  destruct (archive_answered d e2 content sess [] r w1
              eq_refl eq_refl eq_refl eq_refl Hsub Hdep Hh)
    as (Hs2 & Hl2 & Hd2).
  simpl app in *. split; [|split].
  - intros H. apply Hs2. unfold w1; simpl. rewrite <- ?Hd0. exact H.
  - rewrite Hl2. unfold w1; simpl.
    repeat (rewrite deploys_app; simpl). rewrite ?app_nil_r.
    rewrite <- ?Hl0. reflexivity.
  - rewrite Hd2. unfold w1; simpl. rewrite <- ?Hd0. reflexivity.
Qed.

Lemma upload_zip_end_to_end_witness :
  session (run [(Action upload_zip, env_ok);
                (TextMessage (U "My Portfolio"), env_ok);
                (DocumentMessage site_zip, env_ok)]
               (observe None [])) = None /\
  map filesCount
    (db (run [(Action upload_zip, env_ok);
              (TextMessage (U "My Portfolio"), env_ok);
              (DocumentMessage site_zip, env_ok)]
             (observe None []))) = [1%nat].
Proof.
  destruct (upload_zip_end_to_end (U "My Portfolio") site_zip
              (bytes_of "Man") deployed env_ok env_ok env_ok
              (observe None []) eq_refl) as (Hs & _ & Hd);
    try reflexivity.
  - unfold submission_ok; repeat split; reflexivity.
  - split; [apply Hs; right; reflexivity|]. rewrite Hd. reflexivity.
Defined.

(** ** The staged data *)

(** Lists, three elements at a time. *)
Lemma list_ind3 {A} (P : list A -> Prop) :
  P [] ->
  (forall a, P [a]) ->
  (forall a b, P [a; b]) ->
  (forall a b c rest, P rest -> P (a :: b :: c :: rest)) ->
  forall l, P l.
Proof.
  intros H0 H1 H2 H3.
  assert (H : forall l, P l /\ (forall a, P (a :: l))
                        /\ (forall a b, P (a :: b :: l))).
  { induction l as [|x l (IH0 & IH1 & IH2)].
    - auto.
    - repeat split; auto. }
  intros l. apply H.
Qed.

Lemma land_shifted_small (x y k : N) :
  (y < 2 ^ k)%N -> N.land (x * 2 ^ k) y = 0%N.
Proof.
  intros Hy. apply N.bits_inj. intros m.
  rewrite N.land_spec, N.bits_0.
  destruct (N.lt_ge_cases m k) as [Hm|Hm].
  - rewrite N.mul_pow2_bits_low by assumption. reflexivity.
  - rewrite <- (N.mod_small y (2 ^ k)) by assumption.
    rewrite N.mod_pow2_bits_high by assumption. apply andb_false_r.
Qed.

Lemma lor_shifted_small (x y k : N) :
  (y < 2 ^ k)%N -> N.lor (x * 2 ^ k) y = (x * 2 ^ k + y)%N.
Proof.
  intros Hy. pose proof (land_shifted_small x y k Hy) as H.
  rewrite N.add_nocarry_lxor, N.lxor_lor by assumption. reflexivity.
Qed.

Lemma byte_lt (a : byte) : (Byte.to_N a < 256)%N.
Proof. pose proof (Byte.to_N_bounded a). lia. Qed.

Lemma lor_mul256 (x y : N) :
  (y < 256)%N -> N.lor (x * 256) y = (x * 256 + y)%N.
Proof. exact (lor_shifted_small x y 8). Qed.

Lemma lor_mul65536 (x y : N) :
  (y < 65536)%N -> N.lor (x * 65536) y = (x * 65536 + y)%N.
Proof. exact (lor_shifted_small x y 16). Qed.

(** The 24 bits of a group of three bytes, and of what is left at the end. *)
Lemma group2_value (a b : byte) :
  N.lor (N.shiftl (Byte.to_N a) 16) (N.shiftl (Byte.to_N b) 8)
  = (Byte.to_N a * 65536 + Byte.to_N b * 256)%N.
Proof.
  pose proof (byte_lt a). pose proof (byte_lt b).
  rewrite !N.shiftl_mul_pow2.
  change (2 ^ 16)%N with 65536%N. change (2 ^ 8)%N with 256%N.
  apply lor_mul65536. lia.
Qed.

Lemma group3_value (a b c : byte) :
  N.lor (N.lor (N.shiftl (Byte.to_N a) 16) (N.shiftl (Byte.to_N b) 8))
        (Byte.to_N c)
  = (Byte.to_N a * 65536 + Byte.to_N b * 256 + Byte.to_N c)%N.
Proof.
  pose proof (byte_lt c).
  rewrite group2_value.
  replace (Byte.to_N a * 65536 + Byte.to_N b * 256)%N
    with ((Byte.to_N a * 256 + Byte.to_N b) * 256)%N by lia.
  apply lor_mul256. assumption.
Qed.

Lemma group1_value (a : byte) :
  N.shiftl (Byte.to_N a) 16 = (Byte.to_N a * 65536)%N.
Proof. rewrite N.shiftl_mul_pow2. reflexivity. Qed.

Lemma sextet (n k : N) :
  N.land (N.shiftr n k) 63 = ((n / 2 ^ k) mod 64)%N.
Proof.
  rewrite N.shiftr_div_pow2. change 63%N with (N.ones 6).
  rewrite N.land_ones. reflexivity.
Qed.

Lemma sextet_low (n : N) : N.land n 63 = (n mod 64)%N.
Proof. change 63%N with (N.ones 6). rewrite N.land_ones. reflexivity. Qed.

Lemma base64_digit_In (i : N) :
  (i < 64)%N -> In (base64_digit i) base64_alphabet.
Proof.
  intros Hi. unfold base64_digit. apply nth_In.
  change (List.length base64_alphabet) with 64%nat. lia.
Qed.

Lemma pad_not_digit : ~ In pad base64_alphabet.
Proof.
  intros H. vm_compute in H.
  repeat (destruct H as [H|H]; [discriminate H|]). exact H.
Qed.

Lemma base64_alphabet_NoDup : NoDup base64_alphabet.
Proof.
  unfold base64_alphabet, U. simpl.
  repeat (constructor;
          [ let H := fresh in
            intros H; simpl in H;
            repeat (destruct H as [H|H]; [discriminate H|]); exact H | ]).
  constructor.
Qed.

Lemma base64_digit_inj (i j : N) :
  (i < 64)%N -> (j < 64)%N -> base64_digit i = base64_digit j -> i = j.
Proof.
  intros Hi Hj H. unfold base64_digit in H.
  apply N2Nat.inj.
  apply (proj1 (NoDup_nth base64_alphabet 0%N) base64_alphabet_NoDup);
    [ change (List.length base64_alphabet) with 64%nat; lia
    | change (List.length base64_alphabet) with 64%nat; lia
    | exact H ].
Qed.

Lemma base64_digit_not_pad (i : N) : (i < 64)%N -> base64_digit i <> pad.
Proof.
  intros Hi E. apply pad_not_digit. rewrite <- E.
  apply base64_digit_In. exact Hi.
Qed.

Lemma sextet_lt (n k : N) : (N.land (N.shiftr n k) 63 < 64)%N.
Proof. rewrite sextet. apply N.mod_lt. discriminate. Qed.

Lemma sextet_low_lt (n : N) : (N.land n 63 < 64)%N.
Proof. rewrite sextet_low. apply N.mod_lt. discriminate. Qed.

Lemma sextet_high_lt (n : N) :
  (n < 16777216)%N -> (N.shiftr n 18 < 64)%N.
Proof.
  intros Hn. rewrite N.shiftr_div_pow2. change (2 ^ 18)%N with 262144%N.
  apply N.Div0.div_lt_upper_bound. lia.
Qed.

Lemma base64_nil : base64 [] = [].
Proof. reflexivity. Qed.

Lemma base64_one (a : byte) :
  base64 [a] = [char1 (word1 a); char2 (word1 a); pad; pad].
Proof. reflexivity. Qed.

Lemma base64_two (a b : byte) :
  base64 [a; b] =
    [char1 (word2 a b); char2 (word2 a b); char3 (word2 a b); pad].
Proof. reflexivity. Qed.

Lemma base64_three (a b c : byte) (rest : list byte) :
  base64 (a :: b :: c :: rest) =
    char1 (word3 a b c) :: char2 (word3 a b c) :: char3 (word3 a b c)
    :: char4 (word3 a b c) :: base64 rest.
Proof. reflexivity. Qed.

Lemma word1_lt (a : byte) : (word1 a < 16777216)%N.
Proof. unfold word1. rewrite group1_value. pose proof (byte_lt a). lia. Qed.

Lemma word2_lt (a b : byte) : (word2 a b < 16777216)%N.
Proof.
  unfold word2. rewrite group2_value.
  pose proof (byte_lt a). pose proof (byte_lt b). lia.
Qed.

Lemma word3_lt (a b c : byte) : (word3 a b c < 16777216)%N.
Proof.
  unfold word3. rewrite group3_value.
  pose proof (byte_lt a). pose proof (byte_lt b). pose proof (byte_lt c). lia.
Qed.

Lemma char1_In (n : N) : (n < 16777216)%N -> In (char1 n) base64_alphabet.
Proof. intros H. apply base64_digit_In, sextet_high_lt, H. Qed.

Lemma char2_In (n : N) : In (char2 n) base64_alphabet.
Proof. apply base64_digit_In, sextet_lt. Qed.

Lemma char3_In (n : N) : In (char3 n) base64_alphabet.
Proof. apply base64_digit_In, sextet_lt. Qed.

Lemma char4_In (n : N) : In (char4 n) base64_alphabet.
Proof. apply base64_digit_In, sextet_low_lt. Qed.

(** X14: the staged data is plain base64 text.  [fileData] is four
    characters for every three bytes of the file, the last group padded:
    its length is [4 * ceil(n / 3)], and every character is one of the 64
    of the base64 alphabet or the padding character [=]. *)
Theorem base64_shape :
  forall bs : list byte,
    List.length (base64 bs) = (4 * ((List.length bs + 2) / 3))%nat /\
    Forall (fun c => In c base64_alphabet \/ c = pad) (base64 bs).
Proof.
  intros bs. induction bs as [|a|a b|a b c rest [IHl IHc]] using list_ind3.
  - split; [reflexivity | constructor].
  - split; [reflexivity|]. rewrite base64_one.
    repeat (apply Forall_cons;
            [auto using char1_In, char2_In, word1_lt|]).
    constructor.
  - split; [reflexivity|]. rewrite base64_two.
    repeat (apply Forall_cons;
            [auto using char1_In, char2_In, char3_In, word2_lt|]).
    constructor.
  - rewrite base64_three. split.
    + cbn [List.length]. rewrite IHl.
      replace (S (S (S (List.length rest))) + 2)%nat
        with (List.length rest + 2 + 1 * 3)%nat by lia.
      rewrite Nat.div_add by discriminate. lia.
    + repeat (apply Forall_cons;
              [auto using char1_In, char2_In, char3_In, char4_In, word3_lt|]).
      exact IHc.
Qed.

Lemma to_N_inj (a b : byte) : Byte.to_N a = Byte.to_N b -> a = b.
Proof.
  intros H. pose proof (Byte.of_to_N a) as Ha. rewrite H in Ha.
  rewrite Byte.of_to_N in Ha. congruence.
Qed.

Lemma char1_index (n m : N) :
  (n < 16777216)%N -> (m < 16777216)%N -> char1 n = char1 m ->
  (n / 262144 = m / 262144)%N.
Proof.
  intros Hn Hm H. apply base64_digit_inj in H;
    try (apply sextet_high_lt; assumption).
  rewrite !N.shiftr_div_pow2 in H. exact H.
Qed.

Lemma char2_index (n m : N) :
  char2 n = char2 m -> ((n / 4096) mod 64 = (m / 4096) mod 64)%N.
Proof.
  intros H. apply base64_digit_inj in H; try apply sextet_lt.
  rewrite !sextet in H. exact H.
Qed.

Lemma char3_index (n m : N) :
  char3 n = char3 m -> ((n / 64) mod 64 = (m / 64) mod 64)%N.
Proof.
  intros H. apply base64_digit_inj in H; try apply sextet_lt.
  rewrite !sextet in H. exact H.
Qed.

Lemma char4_index (n m : N) :
  char4 n = char4 m -> (n mod 64 = m mod 64)%N.
Proof.
  intros H. apply base64_digit_inj in H; try apply sextet_low_lt.
  rewrite !sextet_low in H. exact H.
Qed.

Lemma char3_not_pad (n : N) : char3 n <> pad.
Proof. apply base64_digit_not_pad, sextet_lt. Qed.

Lemma char4_not_pad (n : N) : char4 n <> pad.
Proof. apply base64_digit_not_pad, sextet_low_lt. Qed.

Lemma word1_inj (a a' : byte) :
  char1 (word1 a) = char1 (word1 a') ->
  char2 (word1 a) = char2 (word1 a') ->
  a = a'.
Proof.
  intros H1 H2.
  apply char1_index in H1; try apply word1_lt.
  apply char2_index in H2.
  unfold word1 in *. rewrite !group1_value in *.
  pose proof (byte_lt a). pose proof (byte_lt a').
  apply to_N_inj.
  zify. Z.to_euclidean_division_equations. lia.
Qed.

(** Equal quotients by [64 * q] and equal next digits give equal quotients
    by [q]. *)
Lemma div_step (n m q : N) :
  (n / (q * 64) = m / (q * 64))%N ->
  ((n / q) mod 64 = (m / q) mod 64)%N ->
  (n / q = m / q)%N.
Proof.
  intros Hq Hr.
  rewrite (N.Div0.div_mod (n / q) 64), (N.Div0.div_mod (m / q) 64).
  rewrite !N.Div0.div_div, Hq, Hr. reflexivity.
Qed.

Lemma word2_inj (a b a' b' : byte) :
  char1 (word2 a b) = char1 (word2 a' b') ->
  char2 (word2 a b) = char2 (word2 a' b') ->
  char3 (word2 a b) = char3 (word2 a' b') ->
  a = a' /\ b = b'.
Proof.
  intros H1 H2 H3.
  apply char1_index in H1; try apply word2_lt.
  apply char2_index in H2. apply char3_index in H3.
  pose proof (div_step _ _ 4096 H1 H2) as H12.
  pose proof (div_step _ _ 64 H12 H3) as H123.
  unfold word2 in H123. rewrite !group2_value in H123.
  replace (Byte.to_N a * 65536 + Byte.to_N b * 256)%N
    with ((Byte.to_N a * 1024 + Byte.to_N b * 4) * 64)%N in H123 by lia.
  replace (Byte.to_N a' * 65536 + Byte.to_N b' * 256)%N
    with ((Byte.to_N a' * 1024 + Byte.to_N b' * 4) * 64)%N in H123 by lia.
  rewrite !N.div_mul in H123 by discriminate.
  pose proof (byte_lt a). pose proof (byte_lt a').
  pose proof (byte_lt b). pose proof (byte_lt b').
  split; apply to_N_inj; lia.
Qed.

Lemma word3_inj (a b c a' b' c' : byte) :
  char1 (word3 a b c) = char1 (word3 a' b' c') ->
  char2 (word3 a b c) = char2 (word3 a' b' c') ->
  char3 (word3 a b c) = char3 (word3 a' b' c') ->
  char4 (word3 a b c) = char4 (word3 a' b' c') ->
  a = a' /\ b = b' /\ c = c'.
Proof.
  intros H1 H2 H3 H4.
  apply char1_index in H1; try apply word3_lt.
  apply char2_index in H2. apply char3_index in H3.
  apply char4_index in H4.
  pose proof (div_step _ _ 4096 H1 H2) as H12.
  pose proof (div_step _ _ 64 H12 H3) as H123.
  assert (E : word3 a b c = word3 a' b' c').
  { rewrite (N.Div0.div_mod (word3 a b c) 64),
            (N.Div0.div_mod (word3 a' b' c') 64), H123, H4. reflexivity. }
  unfold word3 in E. rewrite !group3_value in E.
  pose proof (byte_lt a). pose proof (byte_lt a').
  pose proof (byte_lt b). pose proof (byte_lt b').
  pose proof (byte_lt c). pose proof (byte_lt c').
  repeat split; apply to_N_inj; lia.
Qed.

Opaque char1 char2 char3 char4 pad base64.

(** X15: the staged data determines the file.  Two files are staged with the
    same [fileData] only if they have the same bytes: nothing of a file is
    lost or confused on the way to the hosting API. *)
Theorem base64_injective :
  forall bs bs' : list byte, base64 bs = base64 bs' -> bs = bs'.
Proof.
  intros bs. induction bs as [|a|a b|a b c rest IH] using list_ind3;
    intros [|a' [|b' [|c' rest']]] H;
    rewrite ?base64_nil, ?base64_one, ?base64_two, ?base64_three in H;
    try discriminate H; try reflexivity;
    injection H; clear H; intros;
    try solve
      [ exfalso;
        match goal with
        | E : pad = char3 _ |- _ => exact (char3_not_pad _ (eq_sym E))
        | E : char3 _ = pad |- _ => exact (char3_not_pad _ E)
        | E : pad = char4 _ |- _ => exact (char4_not_pad _ (eq_sym E))
        | E : char4 _ = pad |- _ => exact (char4_not_pad _ E)
        end ].
  - match goal with
    | H1 : char1 _ = char1 _, H2 : char2 _ = char2 _ |- _ =>
        rewrite (word1_inj a a' H1 H2)
    end. reflexivity.
  - match goal with
    | H1 : char1 _ = char1 _, H2 : char2 _ = char2 _,
      H3 : char3 _ = char3 _ |- _ =>
        destruct (word2_inj a b a' b' H1 H2 H3) as [-> ->]
    end. reflexivity.
  - match goal with
    | H1 : char1 _ = char1 _, H2 : char2 _ = char2 _,
      H3 : char3 _ = char3 _, H4 : char4 _ = char4 _,
      H5 : base64 _ = base64 _ |- _ =>
        destruct (word3_inj a b c a' b' c' H1 H2 H3 H4) as (-> & -> & ->);
        rewrite (IH rest' H5)
    end. reflexivity.
Qed.

Transparent char1 char2 char3 char4 pad base64.

Lemma base64_shape_witness :
  List.length (base64 (bytes_of "Mann")) = 8%nat.
Proof. exact (proj1 (base64_shape (bytes_of "Mann"))). Defined.

Lemma base64_injective_witness :
  bytes_of "Man" = [x4d; x61; x6e]%byte.
Proof. apply base64_injective. reflexivity. Defined.

(** ** What happens to the records *)

Lemma findOneAndUpdate_identity (sl : jsstr) (st : SiteStatus)
      (d d' : list UserSite) :
  findOneAndUpdate sl st d = Some d' ->
  map identity_of d' = map identity_of d.
Proof.
  intros H. pose proof (findOneAndUpdate_spec sl st d) as Hspec.
  destruct (findOne sl d) as [r|]; [|congruence].
  destruct Hspec as (pre & post & -> & _ & Hupd).
  rewrite Hupd in H. injection H as <-. rewrite !map_app. reflexivity.
Qed.

Lemma deploys_snoc (l : list Effect) (e : Effect) :
  deploys (l ++ [e]) =
    match e with
    | PostUpload sn fs => deploys l ++ [(sn, fs)]
    | _ => deploys l
    end.
Proof.
  rewrite deploys_app. destruct e; simpl; rewrite ?app_nil_r; reflexivity.
Qed.

Ltac give_deploys :=
  eexists; split;
  [ repeat (rewrite deploys_snoc; simpl);
    first [ reflexivity | symmetry; apply app_nil_r ] | ].

Ltac solve_accepts :=
  unfold accepts, site_data; simpl;
  repeat match goal with
         | H : negb _ = false |- _ => apply negb_false_iff in H
         | H : r_slug _ = _ |- _ => rewrite H in *; clear H
         | H : r_url _ = _ |- _ => rewrite H in *; clear H
         end;
  simpl in *;
  repeat match goal with
         | H : _ && true = true |- _ => rewrite andb_true_r in H
         | H : ?x = true |- context [?x] => rewrite H
         | H : ?x = false |- context [negb ?x] => rewrite H
         end;
  reflexivity.

Ltac kept_leaf :=
  first
    [ (* a status was set *)
      match goal with
      | H : findOneAndUpdate _ _ _ = Some _ |- _ =>
          exists []; give_deploys;
          split; [rewrite app_nil_r;
                  exact (findOneAndUpdate_identity _ _ _ _ H)
                 | left; reflexivity]
      end
    | (* nothing changed *)
      exists []; give_deploys;
      split; [rewrite app_nil_r; reflexivity | left; reflexivity]
    | (* a record was appended *)
      eexists [_]; give_deploys;
      split; [reflexivity|]; right;
      eexists _, _, _;
      split; [reflexivity|];
      split; [eassumption|];
      split; [eassumption|];
      split; [solve_accepts|];
      split; [|reflexivity];
      unfold site_data, new_UserSite; simpl; congruence ].

(** What one update does to the collection. *)
Lemma process_records :
  forall (u : Update) (env : Env) (w : World),
  exists (added : list UserSite) (k : list (option jsstr * list StagedFile)),
    deploys (log (process u env w)) = deploys (log w) ++ k /\
    map identity_of (db (process u env w)) =
      map identity_of (db w ++ added) /\
    (added = [] \/
     exists sn fs r,
       k = [(sn, fs)] /\
       hosting env sn fs = DeployReturns r /\
       ok r = true /\
       accepts env (db w) (site_data sn r fs) = true /\
       added = [new_UserSite (from_id env) (site_data sn r fs) (now env)] /\
       db (process u env w) = db w ++ added).
Proof.
  intros u env [s d l].
  destruct u as [|a|text|doc]; [|destruct a| |];
    js_unfold; repeat (case_branch; simpl).
  all: kept_leaf.
Qed.

(** X16: records are never lost.  Along any conversation, whatever the
    outside world answers, every document of the collection stays where it
    is with every field but its status as it was; documents are only added
    at the end, no more of them than deploy requests were made, and each
    added document is the record of one of these requests: its name is the
    site name of the request and its file count the number of files sent. *)
Theorem records_are_kept :
  forall (us : list (Update * Env)) (w : World),
  exists (added : list UserSite) (k : list (option jsstr * list StagedFile)),
    deploys (log (run us w)) = deploys (log w) ++ k /\
    map identity_of (db (run us w)) = map identity_of (db w ++ added) /\
    (List.length added <= List.length k)%nat /\
    Forall (fun rec =>
              exists fs, In (Some (name rec), fs) k /\
                         filesCount rec = List.length fs) added.
Proof.
  induction us as [|[u env] us IH]; intros w; simpl.
  - exists [], []. rewrite !app_nil_r. auto.
  - destruct (process_records u env w) as (a1 & k1 & Hl1 & Hd1 & Ha1).
    destruct (IH (process u env w)) as (a2 & k2 & Hl2 & Hd2 & Hn2 & Hf2).
    exists (a1 ++ a2), (k1 ++ k2). split; [|split; [|split]].
    + rewrite Hl2, Hl1, app_assoc. reflexivity.
    + rewrite Hd2, map_app, Hd1, <- map_app, app_assoc. reflexivity.
    + rewrite !length_app.
      destruct Ha1 as [-> | (sn & fs & r & -> & _ & _ & _ & -> & _)];
        simpl; lia.
    + apply Forall_app. split.
      * destruct Ha1 as [-> | (sn & fs & r & -> & _ & _ & Hacc & -> & _)];
          constructor; [|constructor].
        unfold accepts, site_data in Hacc. simpl in Hacc.
        destruct sn as [[|c n]|]; try discriminate Hacc.
        exists fs. simpl. auto.
      * apply Forall_forall. intros rec Hrec.
        rewrite Forall_forall in Hf2.
        destruct (Hf2 rec Hrec) as (fs & Hin & Hc).
        exists fs. split; [apply in_or_app; auto | exact Hc].
Qed.


Lemma slugs_of_identities (d d' : list UserSite) :
  map identity_of d = map identity_of d' -> map slug d = map slug d'.
Proof.
  intros H.
  assert (E : forall l, map slug l
              = map (fun i : Z * jsstr * jsstr * jsstr * nat * Z =>
                       let '(_, _, s, _, _, _) := i in s)
                    (map identity_of l)).
  { intros l. rewrite map_map. apply map_ext. intros r. reflexivity. }
  rewrite (E d), (E d'), H. reflexivity.
Qed.

(** X17: slugs stay unique.  If no two documents of the collection share a
    slug, then no sequence of updates, whatever the outside world answers,
    leads to a collection in which two documents do. *)
Theorem slugs_stay_unique :
  forall (us : list (Update * Env)) (w : World),
    NoDup (map slug (db w)) ->
    NoDup (map slug (db (run us w))).
Proof.
  induction us as [|[u env] us IH]; intros w Hnd; simpl; [exact Hnd|].
  apply IH.
  destruct (process_records u env w)
    as (added & k & _ & Hid & [-> | (sn & fs & r & _ & _ & _ & Hacc & -> & _)]).
  - rewrite app_nil_r in Hid. rewrite (slugs_of_identities _ _ Hid).
    exact Hnd.
  - rewrite (slugs_of_identities _ _ Hid), map_app. simpl.
    apply NoDup_app; [exact Hnd | repeat constructor; intros [] |].
    intros x Hx [<-|[]]. unfold accepts in Hacc.
    apply andb_true_iff in Hacc as [_ Hacc]. simpl in Hacc.
    apply negb_true_iff in Hacc.
    apply has_slug_In in Hx. congruence.
Qed.

Lemma slugs_stay_unique_witness :
  NoDup (map slug
           (db (run [(Action upload_zip, env_ok);
                     (TextMessage (U "My Portfolio"), env_ok);
                     (DocumentMessage site_zip, env_ok)]
                    (observe None [older_site; blog])))).
Proof.
  apply slugs_stay_unique. simpl.
  repeat constructor; simpl; intuition discriminate.
Defined.

(** ** The staged files *)

(** One update and the file list of a session. *)
Lemma files_step (u : Update) (env : Env) (w : World) (sess : Session)
      (fs : list StagedFile) :
  starts_session u = false ->
  session w = Some sess ->
  files sess = Some fs ->
  match session (process u env w) with
  | None => True
  | Some sess' =>
      uploadType sess' = uploadType sess /\
      exists ext, files sess' = Some (fs ++ ext) /\
                  (List.length ext <= 1)%nat
  end.
Proof.
  intros Hu Hs Hfs. destruct w as [s d l]; simpl in Hs; subst s.
  destruct u as [|a|text|doc]; [|destruct a| |]; try discriminate Hu;
    js_unfold; rewrite ?Hfs; simpl;
    repeat (case_branch; simpl; rewrite ?Hfs; simpl);
    try exact I;
    (split; [reflexivity|]);
    first [ exists []; rewrite app_nil_r; split;
            [first [reflexivity | assumption] | simpl; lia]
          | eexists [_]; split; [reflexivity | simpl; lia]
          | congruence ].
Qed.

(** X18: staged files are only ever added at the end.  As long as no new
    session is started, whatever updates arrive and whatever the outside
    world answers, a session that is still there has the upload type it
    started with, and its file list is the earlier list with the files
    staged since appended: nothing is dropped, reordered or rewritten. *)
Theorem staging_is_append_only :
  forall (us : list (Update * Env)) (w : World) (sess : Session)
         (fs : list StagedFile),
    Forall (fun '(u, _) => starts_session u = false) us ->
    session w = Some sess ->
    files sess = Some fs ->
    match session (run us w) with
    | None => True
    | Some sess' =>
        uploadType sess' = uploadType sess /\
        exists ext, files sess' = Some (fs ++ ext) /\
                    (List.length ext <= List.length us)%nat
    end.
Proof.
  induction us as [|[u env] us IH]; intros w sess fs Hall Hs Hfs; simpl.
  - rewrite Hs. split; [reflexivity|]. exists []. rewrite app_nil_r. auto.
  - inversion Hall as [|x xs Hu Hrest]; subst.
    pose proof (files_step u env w sess fs Hu Hs Hfs) as Hstep.
    destruct (session (process u env w)) as [sess1|] eqn:Hs1.
    + destruct Hstep as (Hut & ext1 & Hfs1 & Hlen1).
      pose proof (IH (process u env w) sess1 (fs ++ ext1) Hrest Hs1 Hfs1)
        as Hrun.
      destruct (session (run us (process u env w))) as [sess2|];
        [|exact I].
      destruct Hrun as (Hut2 & ext2 & Hfs2 & Hlen2).
      split; [congruence|]. exists (ext1 ++ ext2).
      rewrite app_assoc. split; [exact Hfs2|].
      rewrite length_app. lia.
    + assert (Hnone : session (run us (process u env w)) = None).
      { clear - Hrest Hs1. revert Hrest Hs1.
        generalize (process u env w). clear.
        induction us as [|[u e] us IH]; intros w Hall Hs; simpl;
          [exact Hs|].
        inversion Hall; subst.
        apply IH; [assumption|].
        exact (proj1 (idle_step u e w ltac:(assumption) Hs)). }
      rewrite Hnone. exact I.
Qed.

Lemma staging_is_append_only_witness :
  match session (run [(DocumentMessage index_html, env_ok);
                      (TextMessage (U "hello"), env_ok);
                      (DocumentMessage huge_zip, env_ok);
                      (DocumentMessage unsized, env_delete_fails)]
                     (observe (Some (named_session multiple
                                       [staged site_zip (bytes_of "Man")]))
                              [])) with
  | None => True
  | Some sess' =>
      uploadType sess' = Some multiple /\
      exists ext,
        files sess' = Some ([staged site_zip (bytes_of "Man")] ++ ext) /\
        (List.length ext <= 4)%nat
  end.
Proof.
  apply (staging_is_append_only
           [(DocumentMessage index_html, env_ok);
            (TextMessage (U "hello"), env_ok);
            (DocumentMessage huge_zip, env_ok);
            (DocumentMessage unsized, env_delete_fails)]
           (observe (Some (named_session multiple
                             [staged site_zip (bytes_of "Man")])) [])
           (named_session multiple [staged site_zip (bytes_of "Man")])
           [staged site_zip (bytes_of "Man")]);
    try reflexivity.
  repeat (apply Forall_cons; [reflexivity|]). apply Forall_nil.
Defined.

(** ** All sites *)

Lemma active_after_insert (r : UserSite) (l : list UserSite) :
  List.length (filter is_active (insert_newest_first r l)) =
  List.length (filter is_active (r :: l)).
Proof.
  induction l as [|y l IH]; simpl; [reflexivity|].
  destruct (uploadedAt y <? uploadedAt r); simpl; [reflexivity|].
  simpl in IH. destruct (is_active y), (is_active r); simpl in *; lia.
Qed.

Lemma active_after_sort (l : list UserSite) :
  List.length (filter is_active (sort_newest_first l)) =
  List.length (filter is_active l).
Proof.
  induction l as [|x l IH]; simpl; [reflexivity|].
  rewrite active_after_insert. simpl.
  destruct (is_active x); simpl; rewrite IH; reflexivity.
Qed.

(** X19: [getAllSites] never throws and changes nothing.  With the
    connection up it returns every document of the collection, deleted ones
    included, each as often as the collection holds it, newest first; the
    number [getTotalSitesCount] reports is the number of active documents
    among them.  With the connection down the list is empty and the count
    is zero. *)
Theorem getAllSites_lists_everything :
  forall (env : Env) (w : World),
  exists (sites : list UserSite) (n : nat),
    getAllSites env w = (Normal sites, w) /\
    getTotalSitesCount env w = (Normal n, w) /\
    n = List.length (filter is_active sites) /\
    (n <= List.length sites)%nat /\
    newest_first sites /\
    if mongo_connected env
    then List.length sites = List.length (db w) /\
         forall r, In r sites <-> In r (db w)
    else sites = [].
Proof.
  intros env w. rewrite getTotalSitesCount_run.
  unfold getAllSites. js_unfold.
  pose proof active_after_sort as Hf.
  destruct (mongo_connected env); simpl.
  - eexists _, _. split; [reflexivity|]. split; [reflexivity|].
    split; [symmetry; apply Hf|]. split; [|split; [|split]].
    + rewrite sort_newest_first_length. apply filter_length_le.
    + apply sort_newest_first_sorted.
    + apply sort_newest_first_length.
    + intros r. apply sort_newest_first_In.
  - exists [], 0%nat. repeat split; auto.
Qed.

Lemma getAllSites_witness :
  exists (sites : list UserSite),
    getAllSites env_ok (observe None three_sites) =
      (Normal sites, observe None three_sites) /\
    List.length sites = 3%nat /\
    In older_site sites.
Proof.
  destruct (getAllSites_lists_everything env_ok (observe None three_sites))
    as (sites & n & Hs & _ & _ & _ & _ & Hlen & Hin).
  exists sites. split; [exact Hs|]. split; [exact Hlen|].
  apply Hin. simpl. auto.
Defined.
